(** * SyncSession: the session facade of packages/realm/src/app-services/SyncSession.ts

    A shallow embedding of the facade over the sync engine's session handle:
    the enum translators, the accessors, the two process-wide listener
    registries and the two deadline-bound completion waits, followed by the
    properties of the facade that are checked against it. *)

From stdpp Require Import base decidable numbers strings list gmap pretty.

Local Open Scope string_scope.
Local Open Scope Z_scope.
Local Open Scope list_scope.

(** ** JavaScript values

    The values the facade compares with [===] or tests for truthiness.
    Numbers are restricted to the integers. *)

Inductive value : Type :=
| undefined
| null
| boolean (b : bool)
| num (n : Z)
| str (s : string).

#[global] Instance value_eq_dec : EqDecision value.
Proof. solve_decision. Defined.

(** [if (v)] *)
Definition truthy (v : value) : bool :=
  match v with
  | undefined | null => false
  | boolean b => b
  | num n => negb (Z.eqb n 0)
  | str s => negb (String.eqb s "")
  end.

(** [Number.MAX_SAFE_INTEGER] *)
Definition MAX_SAFE_INTEGER : Z := 2 ^ 53 - 1.

(** The rendering of a number in a template literal.  A safe integer is
    rendered by its decimal digits.  Beyond the safe integers the language
    rounds the digits and, from 10^21 on, writes an exponent; that part of
    the rendering is taken as a parameter. *)
Class NumberToString : Type := unsafe_Number_toString : Z -> string.

(** [`${v}`] *)
Definition ToString {nts : NumberToString} (v : value) : string :=
  match v with
  | undefined => "undefined"
  | null => "null"
  | boolean true => "true"
  | boolean false => "false"
  | num n => if Z.abs n <=? MAX_SAFE_INTEGER then pretty n else unsafe_Number_toString n
  | str s => s
  end.

(** [needle] occurs inside [hay]. *)
Definition embeds (needle hay : string) : Prop :=
  exists pre post, hay = pre +:+ needle +:+ post.

(** ** Exceptions and results *)

Inductive exn : Type :=
| Error (message : string)
| DuplicateRegistration
| Timeout (message : string)
| Foreign (name message : string).

Inductive Result (A : Type) : Type :=
| Ok (a : A)
| Throw (e : exn).

Arguments Ok {A} a.
Arguments Throw {A} e.

(** ** Promises on a logical clock

    A promise either settles at some instant with an outcome, or stays
    pending for ever. *)

Inductive Promise (A : Type) : Type :=
| settled_at (t : Z) (outcome : Result A)
| pending_forever.

Arguments settled_at {A} t outcome.
Arguments pending_forever {A}.

(** ** The public enumerations *)

Module ProgressDirection.
Definition Download : value := str "download".
Definition Upload : value := str "upload".
Definition members : list value := [Download; Upload].
End ProgressDirection.

Module ProgressMode.
Definition ReportIndefinitely : value := str "reportIndefinitely".
Definition ForCurrentlyOutstandingWork : value := str "forCurrentlyOutstandingWork".
Definition members : list value := [ReportIndefinitely; ForCurrentlyOutstandingWork].
End ProgressMode.

Module ConnectionState.
Definition Disconnected : value := str "disconnected".
Definition Connecting : value := str "connecting".
Definition Connected : value := str "connected".
Definition members : list value := [Disconnected; Connecting; Connected].
End ConnectionState.

Module SessionState.
Definition Invalid : value := str "invalid".
Definition Active : value := str "active".
Definition Inactive : value := str "inactive".
Definition members : list value := [Invalid; Active; Inactive].
End SessionState.

(** A caller's callback, by function identity. *)
Definition callback : Type := positive.

(** ** The engine binding

    The generated binding is not part of the sources.  Its enumerations are
    taken as parameters: a class per enumeration gives the engine's value
    for each member the facade names.  The session handle is a record of
    the properties the facade reads, together with the handle's identity. *)

Module binding.

Module ProgressDirection.
Class t : Type := { download : value; upload : value }.
End ProgressDirection.

Module SyncSessionConnectionState.
Class t : Type := { Disconnected : value; Connecting : value; Connected : value }.
Definition members `{t} : list value := [Disconnected; Connecting; Connected].
End SyncSessionConnectionState.

Module SyncSessionState.
Class t : Type := { Active : value; Dying : value; Inactive : value }.
End SyncSessionState.

Module SyncSessionStopPolicy.
Class t : Type := {
  AfterChangesUploaded : value;
  Immediately : value;
  LiveIndefinitely : value;
}.
Definition members `{t} : list value := [AfterChangesUploaded; Immediately; LiveIndefinitely].
End SyncSessionStopPolicy.

(** The engine's user handle, by identity. *)
Definition SyncUser : Type := positive.

Record SyncConfig : Type := {
  partitionValue : string;
  flxSyncRequested : bool;
}.

Record SyncSession : Type := {
  id : positive;
  user : SyncUser;
  config : SyncConfig;
  state : value;
  connectionState : value;
  fullRealmUrl : value;
  waitForDownloadCompletion : Promise unit;
  waitForUploadCompletion : Promise unit;
}.

(** The calls the facade makes on the engine's listener interface. *)
Inductive Call : Type :=
| registerProgressNotifier (internal : positive) (adapter : callback) (direction : value) (isStreaming : bool)
| unregisterProgressNotifier (internal : positive) (token : Z)
| registerConnectionChangeCallback (internal : positive) (adapter : callback)
| unregisterConnectionChangeCallback (internal : positive) (token : Z).

#[global] Instance Call_eq_dec : EqDecision Call.
Proof. solve_decision. Defined.

End binding.

(** [type ListenerToken = { internal: binding.SyncSession; token: bigint }];
    the handle is held by reference. *)
Module ListenerToken.
Record t : Type := {
  internal : positive;
  token : Z;
}.
End ListenerToken.

#[global] Instance ListenerToken_eq_dec : EqDecision ListenerToken.t.
Proof. solve_decision. Defined.

(** ** Computations on the engine

    A computation reads and extends the trace of calls the engine has
    received, and returns or throws.  A throw keeps the trace. *)

Definition Engine (A : Type) : Type := list binding.Call -> Result A * list binding.Call.

Definition ret {A} (a : A) : Engine A := fun tr => (Ok a, tr).

Definition throw {A} (e : exn) : Engine A := fun tr => (Throw e, tr).

Definition bind {A B} (m : Engine A) (k : A -> Engine B) : Engine B :=
  fun tr =>
    match m tr with
    | (Ok a, tr') => k a tr'
    | (Throw e, tr') => (Throw e, tr')
    end.

Definition lift {A} (r : Result A) : Engine A := fun tr => (r, tr).

Notation "'let!' x ':=' m 'in' k" := (bind m (fun x => k))
  (at level 10, x name, k at level 200).

(** ** The State Translator *)

Section Translator.
Context {nts : NumberToString}.
Context {bPD : binding.ProgressDirection.t}.
Context {bCS : binding.SyncSessionConnectionState.t}.
Context {bSS : binding.SyncSessionState.t}.

Definition toBindingDirection (direction : value) : Result value :=
  if decide (direction = ProgressDirection.Download) then
    Ok binding.ProgressDirection.download
  else if decide (direction = ProgressDirection.Upload) then
    Ok binding.ProgressDirection.upload
  else
    Throw (Error ("Unexpected direction: " +:+ ToString direction)).

Definition fromBindingConnectionState (state : value) : Result value :=
  if decide (state = binding.SyncSessionConnectionState.Connected) then
    Ok ConnectionState.Connected
  else if decide (state = binding.SyncSessionConnectionState.Connecting) then
    Ok ConnectionState.Connecting
  else if decide (state = binding.SyncSessionConnectionState.Disconnected) then
    Ok ConnectionState.Disconnected
  else
    Throw (Error ("Unexpected state: " +:+ ToString state)).

Definition fromBindingSessionState (state : value) : value :=
  if decide (state = binding.SyncSessionState.Inactive) then
    SessionState.Inactive
  else
    SessionState.Active.

End Translator.

(** ** The Listener Registry *)

(** Modelled from the spec: the [Listeners] class of ../internal, which the
    sources import but do not contain.  A registry maps a callback to the
    token its registration returned.  [add] rejects a callback that has a
    live entry, otherwise calls [register] and records the token; [remove]
    does nothing for a callback without a live entry, otherwise calls
    [unregister] with the stored token and deletes the entry.  The spec
    describes the registry as the facade configures it, with [throwOnReAdd]
    set; with the flag cleared the model leaves a repeated [add] without
    effect. *)
Module Listeners.

Record options (Token Args : Type) : Type := {
  throwOnReAdd : bool;
  register : callback -> Args -> Engine Token;
  unregister : Token -> Engine unit;
}.

Arguments throwOnReAdd {Token Args} _.
Arguments register {Token Args} _ _ _ _.
Arguments unregister {Token Args} _ _ _.

Definition add {Token Args} (o : options Token Args) (cb : callback) (args : Args)
    (listeners : gmap callback Token) (tr : list binding.Call)
  : Result unit * (gmap callback Token * list binding.Call) :=
  match listeners !! cb with
  | Some _ =>
      if throwOnReAdd o then (Throw DuplicateRegistration, (listeners, tr))
      else (Ok tt, (listeners, tr))
  | None =>
      match register o cb args tr with
      | (Ok token, tr') => (Ok tt, (<[cb := token]> listeners, tr'))
      | (Throw e, tr') => (Throw e, (listeners, tr'))
      end
  end.

Definition remove {Token Args} (o : options Token Args) (cb : callback)
    (listeners : gmap callback Token) (tr : list binding.Call)
  : Result unit * (gmap callback Token * list binding.Call) :=
  match listeners !! cb with
  | None => (Ok tt, (listeners, tr))
  | Some token =>
      match unregister o token tr with
      | (Ok _, tr') => (Ok tt, (delete cb listeners, tr'))
      | (Throw e, tr') => (Throw e, (listeners, tr'))
      end
  end.

End Listeners.

(** The engine's listener primitives, as the facade sees them: a register
    call is recorded and returns the token the engine issues for it; an
    unregister call is recorded. *)

Section EnginePrimitives.
Variable issue_token : list binding.Call -> Z.

Definition engine_register (c : binding.Call) : Engine Z :=
  fun tr => let tr' := tr ++ [c] in (Ok (issue_token tr'), tr').

Definition engine_unregister (c : binding.Call) : Engine unit :=
  fun tr => (Ok tt, tr ++ [c]).

End EnginePrimitives.

(** The two registries are process-wide: every facade instance works on the
    same pair of maps. *)

Record World : Type := {
  progress_listeners : gmap callback ListenerToken.t;
  connection_listeners : gmap callback ListenerToken.t;
  engine : list binding.Call;
}.

Section Registries.
Context {nts : NumberToString}.
Context {bPD : binding.ProgressDirection.t}.
Variable issue_token : list binding.Call -> Z.

Definition PROGRESS_LISTENERS
  : Listeners.options ListenerToken.t (binding.SyncSession * value * value) :=
  {| Listeners.throwOnReAdd := true;
     Listeners.register := fun callback '(internal, direction, mode) =>
       let! direction' := lift (toBindingDirection direction) in
       let! token := engine_register issue_token
         (binding.registerProgressNotifier (binding.id internal) callback direction'
            (bool_decide (mode = ProgressMode.ReportIndefinitely))) in
       ret {| ListenerToken.internal := binding.id internal; ListenerToken.token := token |};
     Listeners.unregister := fun t =>
       engine_unregister
         (binding.unregisterProgressNotifier (ListenerToken.internal t) (ListenerToken.token t))
  |}.

Definition CONNECTION_LISTENERS
  : Listeners.options ListenerToken.t binding.SyncSession :=
  {| Listeners.throwOnReAdd := true;
     Listeners.register := fun callback internal =>
       let! token := engine_register issue_token
         (binding.registerConnectionChangeCallback (binding.id internal) callback) in
       ret {| ListenerToken.internal := binding.id internal; ListenerToken.token := token |};
     Listeners.unregister := fun t =>
       engine_unregister
         (binding.unregisterProgressNotifier (ListenerToken.internal t) (ListenerToken.token t))
  |}.

End Registries.

(** ** The Deadline-Bound Waiter *)

(** Modelled from the spec: the [TimeoutPromise] class of ../internal, which
    the sources import but do not contain.  Without a timeout no timer is
    created and the result is the inner promise.  With a timeout a timer of
    that duration, started at instant 0, races the inner promise: the first
    of the two to settle determines the outcome, and a timer that fires
    first fails the result with [Timeout message].  The spec leaves open
    which side wins when both settle at the same instant; the model takes
    that choice as the parameter [timer_wins_tie]. *)
Definition TimeoutPromise (timer_wins_tie : bool) {A} (inner : Promise A)
    (ms : option Z) (message : string) : Promise A :=
  match ms with
  | None => inner
  | Some d =>
      match inner with
      | pending_forever => settled_at d (Throw (Timeout message))
      | settled_at t outcome =>
          if decide (t < d) then settled_at t outcome
          else if decide (d < t) then settled_at d (Throw (Timeout message))
          else if timer_wins_tie then settled_at d (Throw (Timeout message))
          else settled_at t outcome
      end
  end.

(** The timer of duration [d] fires strictly before [signal] settles. *)
Definition elapses_before {A} (d : Z) (signal : Promise A) : Prop :=
  match signal with
  | pending_forever => True
  | settled_at t _ => d < t
  end.

(** [signal] settles strictly before the timer of duration [d] fires. *)
Definition settles_before {A} (signal : Promise A) (d : Z) : Prop :=
  match signal with
  | pending_forever => False
  | settled_at t _ => t < d
  end.

(** ** The Session Facade *)

(** Modelled from the spec: the [User] class of ../internal, which the
    sources import but do not contain.  The resolved user of a session is
    the wrapper of the engine's user handle; the facade constructs it from
    that handle and an application object. *)
Module User.
Record t : Type := {
  internal : binding.SyncUser;
  app : list (string * value);
}.
End User.

(** [SyncConfiguration], as far as the facade fills it in: a property that
    an object literal leaves out is [None]. *)
Module SyncConfiguration.
Record t (PartitionValue : Type) : Type := {
  user : User.t;
  flexible : option bool;
  partitionValue : option PartitionValue;
}.
Arguments user {PartitionValue} _.
Arguments flexible {PartitionValue} _.
Arguments partitionValue {PartitionValue} _.
End SyncConfiguration.

Module SyncSession.

Record t : Type := { internal : binding.SyncSession }.

Section Methods.
Context {nts : NumberToString}.
Context {bPD : binding.ProgressDirection.t}.
Context {bCS : binding.SyncSessionConnectionState.t}.
Context {bSS : binding.SyncSessionState.t}.
(** [EJSON.parse] of the bson library, on the values a partition value decodes to. *)
Context {PartitionValue : Type}.
Variable EJSON_parse : string -> Result PartitionValue.
Variable issue_token : list binding.Call -> Z.
Variable timer_wins_tie : bool.

Definition config (this : t) : Result (SyncConfiguration.t PartitionValue) :=
  let user := {| User.internal := binding.user (internal this); User.app := [] |} in
  let partitionValue := binding.partitionValue (binding.config (internal this)) in
  let flxSyncRequested := binding.flxSyncRequested (binding.config (internal this)) in
  if flxSyncRequested then
    Ok {| SyncConfiguration.user := user;
          SyncConfiguration.flexible := Some true;
          SyncConfiguration.partitionValue := None |}
  else
    match EJSON_parse partitionValue with
    | Ok v => Ok {| SyncConfiguration.user := user;
                    SyncConfiguration.flexible := None;
                    SyncConfiguration.partitionValue := Some v |}
    | Throw e => Throw e
    end.

Definition state (this : t) : value :=
  fromBindingSessionState (binding.state (internal this)).

Definition url (this : t) : Result value :=
  let url := binding.fullRealmUrl (internal this) in
  if truthy url then Ok url
  else Throw (Error "Unable to determine URL").

Definition connectionState (this : t) : Result value :=
  fromBindingConnectionState (binding.connectionState (internal this)).

Definition isConnected (this : t) : bool :=
  let connectionState := binding.connectionState (internal this) in
  let state := binding.state (internal this) in
  bool_decide (connectionState = binding.SyncSessionConnectionState.Connected)
  && (bool_decide (state = binding.SyncSessionState.Active)
      || bool_decide (state = binding.SyncSessionState.Dying)).

Definition addProgressNotification (this : t) (direction mode : value) (callback : callback)
    (w : World) : Result unit * World :=
  let '(r, (listeners, tr)) :=
    Listeners.add (PROGRESS_LISTENERS issue_token) callback (internal this, direction, mode)
      (progress_listeners w) (engine w) in
  (r, {| progress_listeners := listeners;
         connection_listeners := connection_listeners w;
         engine := tr |}).

Definition removeProgressNotification (this : t) (callback : callback)
    (w : World) : Result unit * World :=
  let '(r, (listeners, tr)) :=
    Listeners.remove (PROGRESS_LISTENERS issue_token) callback
      (progress_listeners w) (engine w) in
  (r, {| progress_listeners := listeners;
         connection_listeners := connection_listeners w;
         engine := tr |}).

Definition addConnectionNotification (this : t) (callback : callback)
    (w : World) : Result unit * World :=
  let '(r, (listeners, tr)) :=
    Listeners.add (CONNECTION_LISTENERS issue_token) callback (internal this)
      (connection_listeners w) (engine w) in
  (r, {| progress_listeners := progress_listeners w;
         connection_listeners := listeners;
         engine := tr |}).

Definition removeConnectionNotification (this : t) (callback : callback)
    (w : World) : Result unit * World :=
  let '(r, (listeners, tr)) :=
    Listeners.remove (CONNECTION_LISTENERS issue_token) callback
      (connection_listeners w) (engine w) in
  (r, {| progress_listeners := progress_listeners w;
         connection_listeners := listeners;
         engine := tr |}).

(** [timeoutMs?: number]: [None] is the omitted argument, which a template
    literal renders as [undefined]. *)
Definition timeoutMs_value (timeoutMs : option Z) : value :=
  match timeoutMs with
  | Some d => num d
  | None => undefined
  end.

Definition downloadAllServerChanges (this : t) (timeoutMs : option Z) : Promise unit :=
  TimeoutPromise timer_wins_tie
    (binding.waitForDownloadCompletion (internal this))
    timeoutMs
    ("Downloading changes did not complete in " +:+ ToString (timeoutMs_value timeoutMs) +:+ " ms.").

Definition uploadAllLocalChanges (this : t) (timeoutMs : option Z) : Promise unit :=
  TimeoutPromise timer_wins_tie
    (binding.waitForUploadCompletion (internal this))
    timeoutMs
    ("Uploading changes did not complete in " +:+ ToString (timeoutMs_value timeoutMs) +:+ " ms.").

End Methods.

End SyncSession.

(** ** The stop-policy translator *)

(** [SessionStopPolicy] is declared in ../internal, which the sources import
    but do not contain; the values of its three members are parameters. *)
Module SessionStopPolicy.
Class t : Type := { AfterUpload : value; Immediately : value; Never : value }.
Definition members `{t} : list value := [AfterUpload; Immediately; Never].
End SessionStopPolicy.

Section StopPolicy.
Context {nts : NumberToString}.
Context {pSP : SessionStopPolicy.t}.
Context {bSP : binding.SyncSessionStopPolicy.t}.

Definition toBindingStopPolicy (policy : value) : Result value :=
  if decide (policy = SessionStopPolicy.AfterUpload) then
    Ok binding.SyncSessionStopPolicy.AfterChangesUploaded
  else if decide (policy = SessionStopPolicy.Immediately) then
    Ok binding.SyncSessionStopPolicy.Immediately
  else if decide (policy = SessionStopPolicy.Never) then
    Ok binding.SyncSessionStopPolicy.LiveIndefinitely
  else
    Throw (Error ("Unexpected policy (get " +:+ ToString policy +:+ ")")).

End StopPolicy.

(** ** The connection-change adapter

    The closure that [CONNECTION_LISTENERS.register] hands to the engine.
    The engine calls it with the old and the new state; it calls the
    caller's callback with the translated new state first and the translated
    old state second.  [connectionChangeAdapter oldState newState] is the
    pair of arguments of that call, or the exception thrown while they are
    evaluated, left to right. *)

Section Adapter.
Context {nts : NumberToString}.
Context {bCS : binding.SyncSessionConnectionState.t}.

Definition connectionChangeAdapter (oldState newState : value) : Result (value * value) :=
  match fromBindingConnectionState newState with
  | Throw e => Throw e
  | Ok newState' =>
      match fromBindingConnectionState oldState with
      | Throw e => Throw e
      | Ok oldState' => Ok (newState', oldState')
      end
  end.

End Adapter.

(** ** Sequences of registry calls

    A caller's calls on the four registry methods, each through some facade
    instance; a call that throws leaves the world it returns and the caller
    goes on. *)

Inductive Op : Type :=
| AddProgress (this : SyncSession.t) (direction mode : value) (cb : callback)
| RemoveProgress (this : SyncSession.t) (cb : callback)
| AddConnection (this : SyncSession.t) (cb : callback)
| RemoveConnection (this : SyncSession.t) (cb : callback).

Section Runs.
Context {nts : NumberToString}.
Context {bPD : binding.ProgressDirection.t}.
Variable issue_token : list binding.Call -> Z.

Definition perform (op : Op) (w : World) : Result unit * World :=
  match op with
  | AddProgress this direction mode cb =>
      SyncSession.addProgressNotification issue_token this direction mode cb w
  | RemoveProgress this cb => SyncSession.removeProgressNotification issue_token this cb w
  | AddConnection this cb => SyncSession.addConnectionNotification issue_token this cb w
  | RemoveConnection this cb => SyncSession.removeConnectionNotification issue_token this cb w
  end.

Definition run (ops : list Op) (w : World) : World :=
  foldl (fun w op => snd (perform op w)) w ops.

(** What one registry call does to the world: nothing, one recorded
    registration, or one removed entry.  The indices are the callback and
    the registry (progress or not) the call is about. *)
Inductive effect (w : World) : callback -> bool -> World -> Prop :=
| effect_none cb progress : effect w cb progress w
| effect_add_progress cb handle direction isStreaming :
    progress_listeners w !! cb = None ->
    let call := binding.registerProgressNotifier handle cb direction isStreaming in
    effect w cb true
      {| progress_listeners :=
           <[cb := {| ListenerToken.internal := handle;
                      ListenerToken.token := issue_token (engine w ++ [call]) |}]>
             (progress_listeners w);
         connection_listeners := connection_listeners w;
         engine := engine w ++ [call] |}
| effect_add_connection cb handle :
    connection_listeners w !! cb = None ->
    let call := binding.registerConnectionChangeCallback handle cb in
    effect w cb false
      {| progress_listeners := progress_listeners w;
         connection_listeners :=
           <[cb := {| ListenerToken.internal := handle;
                      ListenerToken.token := issue_token (engine w ++ [call]) |}]>
             (connection_listeners w);
         engine := engine w ++ [call] |}
| effect_remove_progress cb t :
    progress_listeners w !! cb = Some t ->
    effect w cb true
      {| progress_listeners := delete cb (progress_listeners w);
         connection_listeners := connection_listeners w;
         engine := engine w ++
           [binding.unregisterProgressNotifier (ListenerToken.internal t) (ListenerToken.token t)] |}
| effect_remove_connection cb t :
    connection_listeners w !! cb = Some t ->
    effect w cb false
      {| progress_listeners := progress_listeners w;
         connection_listeners := delete cb (connection_listeners w);
         engine := engine w ++
           [binding.unregisterProgressNotifier (ListenerToken.internal t) (ListenerToken.token t)] |}.

End Runs.

(** The callback a call is about, and the registry it goes to. *)
Definition op_callback (op : Op) : callback :=
  match op with
  | AddProgress _ _ _ cb | RemoveProgress _ cb | AddConnection _ cb | RemoveConnection _ cb => cb
  end.

Definition on_progress (op : Op) : bool :=
  match op with
  | AddProgress _ _ _ _ | RemoveProgress _ _ => true
  | AddConnection _ _ | RemoveConnection _ _ => false
  end.




(** The token of every entry is the one the engine issued for a register
    call of the entry's kind, on the entry's handle, for the entry's
    callback. *)
Definition issued_by_engine (issue_token : list binding.Call -> Z) (w : World) : Prop :=
  (forall cb t, progress_listeners w !! cb = Some t ->
     exists pre direction isStreaming,
       (pre ++ [binding.registerProgressNotifier (ListenerToken.internal t) cb
                  direction isStreaming]) `prefix_of` engine w
       /\ ListenerToken.token t
          = issue_token (pre ++ [binding.registerProgressNotifier (ListenerToken.internal t) cb
                                   direction isStreaming]))
  /\ (forall cb t, connection_listeners w !! cb = Some t ->
       exists pre,
         (pre ++ [binding.registerConnectionChangeCallback (ListenerToken.internal t) cb])
           `prefix_of` engine w
         /\ ListenerToken.token t
            = issue_token (pre ++ [binding.registerConnectionChangeCallback
                                     (ListenerToken.internal t) cb])).

(** ** A concrete engine

    One instance of the parameters, on which the properties below are
    exercised: numeric codes for the binding's enumerations, an engine that
    numbers its registrations, a decoder that accepts decimal [1] only, and
    a session handle. *)

Module Sample.

Definition direction_codes : binding.ProgressDirection.t :=
  {| binding.ProgressDirection.download := num 1;
     binding.ProgressDirection.upload := num 0 |}.

Definition connection_codes : binding.SyncSessionConnectionState.t :=
  {| binding.SyncSessionConnectionState.Disconnected := num 0;
     binding.SyncSessionConnectionState.Connecting := num 1;
     binding.SyncSessionConnectionState.Connected := num 2 |}.

Definition session_codes : binding.SyncSessionState.t :=
  {| binding.SyncSessionState.Active := num 0;
     binding.SyncSessionState.Dying := num 1;
     binding.SyncSessionState.Inactive := num 2 |}.

(** The sample calls use safe integers only; every other number is
    rendered like 10^21. *)
Definition rendering : NumberToString := fun _ => "1e+21".

Definition issue_token (tr : list binding.Call) : Z := Z.of_nat (length tr).

Definition policies : SessionStopPolicy.t :=
  {| SessionStopPolicy.AfterUpload := str "after-upload";
     SessionStopPolicy.Immediately := str "immediately";
     SessionStopPolicy.Never := str "never" |}.

Definition policy_codes : binding.SyncSessionStopPolicy.t :=
  {| binding.SyncSessionStopPolicy.AfterChangesUploaded := num 0;
     binding.SyncSessionStopPolicy.Immediately := num 1;
     binding.SyncSessionStopPolicy.LiveIndefinitely := num 2 |}.

Definition EJSON_parse (s : string) : Result value :=
  if decide (s = "1") then Ok (num 1)
  else Throw (Foreign "BSONError" ("cannot decode " +:+ s)).

Definition handle (partition : string) (flx : bool) (st cs url : value)
    (down up : Promise unit) : binding.SyncSession :=
  {| binding.id := 7%positive;
     binding.user := 3%positive;
     binding.config := {| binding.partitionValue := partition; binding.flxSyncRequested := flx |};
     binding.state := st;
     binding.connectionState := cs;
     binding.fullRealmUrl := url;
     binding.waitForDownloadCompletion := down;
     binding.waitForUploadCompletion := up |}.

Definition session : SyncSession.t :=
  {| SyncSession.internal :=
       handle "1" false (num 0) (num 2) (str "wss://realm.example/api")
         pending_forever (settled_at 20 (Ok tt)) |}.

Definition empty_world : World :=
  {| progress_listeners := ∅; connection_listeners := ∅; engine := [] |}.

(** The world after [session] registered callback 1 for connection changes. *)
Definition connection_world : World :=
  snd (SyncSession.addConnectionNotification issue_token session 1%positive empty_world).

(** The world after [session] registered callback 2 for upload progress. *)
Definition progress_world : World :=
  snd (SyncSession.addProgressNotification (nts := rendering) (bPD := direction_codes) issue_token session
         ProgressDirection.Upload ProgressMode.ForCurrentlyOutstandingWork 2%positive
         empty_world).

(** A second facade instance, on another handle. *)
Definition other_session : SyncSession.t :=
  {| SyncSession.internal :=
       {| binding.id := 8%positive;
          binding.user := 3%positive;
          binding.config := {| binding.partitionValue := "1"; binding.flxSyncRequested := true |};
          binding.state := num 2;
          binding.connectionState := num 0;
          binding.fullRealmUrl := undefined;
          binding.waitForDownloadCompletion := pending_forever;
          binding.waitForUploadCompletion := pending_forever |} |}.

End Sample.

(** [this] with the engine reporting connection state [cs] and session state [st]. *)
Definition reporting (this : SyncSession.t) (cs st : value) : SyncSession.t :=
  let i := SyncSession.internal this in
  {| SyncSession.internal :=
       {| binding.id := binding.id i;
          binding.user := binding.user i;
          binding.config := binding.config i;
          binding.state := st;
          binding.connectionState := cs;
          binding.fullRealmUrl := binding.fullRealmUrl i;
          binding.waitForDownloadCompletion := binding.waitForDownloadCompletion i;
          binding.waitForUploadCompletion := binding.waitForUploadCompletion i |} |}.

(** * Properties *)

Section TranslatorProperties.
Context {nts : NumberToString}.
Context {bPD : binding.ProgressDirection.t}.
Context {bCS : binding.SyncSessionConnectionState.t}.
Context {bSS : binding.SyncSessionState.t}.

Lemma fromBindingConnectionState_unknown (v : value) :
  v ∉ binding.SyncSessionConnectionState.members ->
  fromBindingConnectionState v = Throw (Error ("Unexpected state: " +:+ ToString v)).
Proof.
  intros Hv. unfold fromBindingConnectionState.
  repeat case_decide; try reflexivity; subst v; exfalso; apply Hv;
    unfold binding.SyncSessionConnectionState.members; set_solver.
Qed.

Lemma toBindingDirection_unknown (v : value) :
  v ∉ ProgressDirection.members ->
  toBindingDirection v = Throw (Error ("Unexpected direction: " +:+ ToString v)).
Proof.
  intros Hv. unfold toBindingDirection.
  repeat case_decide; try reflexivity; subst v; exfalso; apply Hv;
    unfold ProgressDirection.members; set_solver.
Qed.

(** C4: the session-state translator is total and collapses every engine
    state other than Inactive to the public Active value: the engine's
    Inactive state is translated to Inactive, every other engine value to
    Active. *)
Theorem fromBindingSessionState_collapses (s : value) :
  (s = binding.SyncSessionState.Inactive
   /\ fromBindingSessionState s = SessionState.Inactive)
  \/ (s <> binding.SyncSessionState.Inactive
      /\ fromBindingSessionState s = SessionState.Active).
Proof.
  unfold fromBindingSessionState.
  destruct (decide (s = binding.SyncSessionState.Inactive)) as [Heq | Hne].
  - left. split; [exact Heq | reflexivity].
  - right. split; [exact Hne | reflexivity].
Qed.

(** C10: for every engine session state the public state getter returns
    Active or Inactive and never Invalid, although Invalid is a declared
    member of the public SessionState enumeration. *)
Theorem state_never_Invalid (this : SyncSession.t) :
  (SyncSession.state this = SessionState.Active
   \/ SyncSession.state this = SessionState.Inactive)
  /\ SyncSession.state this <> SessionState.Invalid
  /\ SessionState.Invalid ∈ SessionState.members.
Proof.
  unfold SyncSession.state, fromBindingSessionState.
  case_decide.
  - split; [right; reflexivity | split; [discriminate | ]].
    unfold SessionState.members. set_solver.
  - split; [left; reflexivity | split; [discriminate | ]].
    unfold SessionState.members. set_solver.
Qed.

(** C6: enum translation never defaults.  With the engine's three
    connection states pairwise distinct, fromBindingConnectionState sends
    Disconnected, Connecting and Connected to the public members of the same
    name, which are pairwise distinct, and throws on every engine value
    outside the three; toBindingDirection sends Download and Upload to the
    engine's download and upload and throws on every other input. *)
Theorem enum_translation_never_defaults
    (Hdistinct : NoDup binding.SyncSessionConnectionState.members) :
  fromBindingConnectionState <$> binding.SyncSessionConnectionState.members
    = Ok <$> ConnectionState.members
  /\ NoDup ConnectionState.members
  /\ (forall v, v ∉ binding.SyncSessionConnectionState.members ->
        fromBindingConnectionState v = Throw (Error ("Unexpected state: " +:+ ToString v)))
  /\ toBindingDirection <$> ProgressDirection.members
       = [Ok binding.ProgressDirection.download; Ok binding.ProgressDirection.upload]
  /\ (forall v, v ∉ ProgressDirection.members ->
        toBindingDirection v = Throw (Error ("Unexpected direction: " +:+ ToString v))).
Proof.
  unfold binding.SyncSessionConnectionState.members in Hdistinct.
  apply NoDup_cons in Hdistinct as [Hd Hrest].
  apply NoDup_cons in Hrest as [Hc _].
  assert (binding.SyncSessionConnectionState.Disconnected
          <> binding.SyncSessionConnectionState.Connected) as Hdc by set_solver.
  assert (binding.SyncSessionConnectionState.Disconnected
          <> binding.SyncSessionConnectionState.Connecting) as Hdg by set_solver.
  assert (binding.SyncSessionConnectionState.Connecting
          <> binding.SyncSessionConnectionState.Connected) as Hgc by set_solver.
  split; [| split; [| split; [| split]]].
  - unfold binding.SyncSessionConnectionState.members, ConnectionState.members.
    cbn [fmap list_fmap]. unfold fromBindingConnectionState.
    repeat case_decide; congruence.
  - unfold ConnectionState.members. compute_done.
  - apply fromBindingConnectionState_unknown.
  - reflexivity.
  - apply toBindingDirection_unknown.
Qed.

(** C5: isConnected returns true exactly when the engine's connection state
    is Connected and its session state is Active or Dying.  With the
    engine's states pairwise distinct, the table over
    (Disconnected, Connecting, Connected) x (Active, Inactive, Invalid, Dying)
    is false everywhere except at (Connected, Active) and (Connected, Dying). *)
Theorem isConnected_truth_table (this : SyncSession.t) (Invalid : value)
    (Hconn : NoDup binding.SyncSessionConnectionState.members)
    (Hsess : NoDup [binding.SyncSessionState.Active; binding.SyncSessionState.Inactive;
                    Invalid; binding.SyncSessionState.Dying]) :
  (SyncSession.isConnected this = true <->
     binding.connectionState (SyncSession.internal this)
       = binding.SyncSessionConnectionState.Connected
     /\ (binding.state (SyncSession.internal this) = binding.SyncSessionState.Active
         \/ binding.state (SyncSession.internal this) = binding.SyncSessionState.Dying))
  /\ (fun cs => (fun st => SyncSession.isConnected (reporting this cs st))
         <$> [binding.SyncSessionState.Active; binding.SyncSessionState.Inactive;
              Invalid; binding.SyncSessionState.Dying])
       <$> binding.SyncSessionConnectionState.members
     = [ [false; false; false; false];
         [false; false; false; false];
         [true; false; false; true] ].
Proof.
  split.
  - unfold SyncSession.isConnected.
    rewrite andb_true_iff, orb_true_iff, !bool_decide_eq_true. reflexivity.
  - unfold binding.SyncSessionConnectionState.members in *.
    apply NoDup_cons in Hconn as [Hd Hconn].
    apply NoDup_cons in Hconn as [Hc _].
    apply NoDup_cons in Hsess as [Ha Hsess].
    apply NoDup_cons in Hsess as [Hi Hsess].
    apply NoDup_cons in Hsess as [Hv _].
    cbn [fmap list_fmap]. unfold SyncSession.isConnected, reporting. cbn.
    repeat case_bool_decide; try reflexivity; exfalso; set_solver.
Qed.

End TranslatorProperties.

Section FacadeProperties.
Context {nts : NumberToString}.
Context {bPD : binding.ProgressDirection.t}.
Context {bCS : binding.SyncSessionConnectionState.t}.
Context {bSS : binding.SyncSessionState.t}.
Context {PartitionValue : Type}.
Variable EJSON_parse : string -> Result PartitionValue.
Variable issue_token : list binding.Call -> Z.
Variable timer_wins_tie : bool.

Lemma World_eta (w : World) :
  {| progress_listeners := progress_listeners w;
     connection_listeners := connection_listeners w;
     engine := engine w |} = w.
Proof. destruct w; reflexivity. Qed.

(** C8: the url accessor fails with the URL-unavailable error whenever the
    engine's fullRealmUrl is absent or empty, returns the engine's URL when
    it is a non-empty string, and whatever it returns is the engine's value,
    never the empty string. *)
Theorem url_unavailable_or_engine_url (this : SyncSession.t) :
  (binding.fullRealmUrl (SyncSession.internal this) = undefined
   \/ binding.fullRealmUrl (SyncSession.internal this) = str "" ->
   SyncSession.url this = Throw (Error "Unable to determine URL"))
  /\ (forall s, binding.fullRealmUrl (SyncSession.internal this) = str s -> s <> "" ->
       SyncSession.url this = Ok (str s))
  /\ (forall r, SyncSession.url this = Ok r ->
       r = binding.fullRealmUrl (SyncSession.internal this)
       /\ r <> str "" /\ r <> undefined).
Proof.
  unfold SyncSession.url. split; [| split].
  - intros [-> | ->]; reflexivity.
  - intros s -> Hs. cbn. apply String.eqb_neq in Hs. rewrite Hs. reflexivity.
  - intros r. destruct (truthy _) eqn:Ht; [| discriminate].
    intros [= <-]. split; [reflexivity |].
    split; intros Heq; rewrite Heq in Ht; discriminate.
Qed.

(** C9: the config accessor returns the resolved user with exactly one
    scoping strategy: the flexible-sync marker and no partition value when
    the engine config requests flexible sync; otherwise the partition value
    that EJSON.parse decodes from the stored string, and when the decoder
    throws, the accessor throws the same exception. *)
Theorem config_one_scoping_strategy (this : SyncSession.t) :
  let stored := binding.config (SyncSession.internal this) in
  let user := {| User.internal := binding.user (SyncSession.internal this); User.app := [] |} in
  (binding.flxSyncRequested stored = true ->
   SyncSession.config EJSON_parse this
   = Ok {| SyncConfiguration.user := user;
           SyncConfiguration.flexible := Some true;
           SyncConfiguration.partitionValue := None |})
  /\ (binding.flxSyncRequested stored = false ->
      forall v, EJSON_parse (binding.partitionValue stored) = Ok v ->
      SyncSession.config EJSON_parse this
      = Ok {| SyncConfiguration.user := user;
              SyncConfiguration.flexible := None;
              SyncConfiguration.partitionValue := Some v |})
  /\ (binding.flxSyncRequested stored = false ->
      forall e, EJSON_parse (binding.partitionValue stored) = Throw e ->
      SyncSession.config EJSON_parse this = Throw e)
  /\ (forall c, SyncSession.config EJSON_parse this = Ok c ->
      SyncConfiguration.user c = user
      /\ ((SyncConfiguration.flexible c = Some true
           /\ SyncConfiguration.partitionValue c = None)
          \/ (SyncConfiguration.flexible c = None
              /\ is_Some (SyncConfiguration.partitionValue c)))).
Proof.
  cbv zeta. unfold SyncSession.config.
  destruct (binding.flxSyncRequested _).
  - split; [reflexivity |]. split; [discriminate |]. split; [discriminate |].
    intros c [= <-]. cbn. split; [reflexivity | left; split; reflexivity].
  - split; [discriminate |].
    destruct (EJSON_parse _) as [v | e].
    + split; [intros _ v' [= <-]; reflexivity |].
      split; [intros _ e' [=] |].
      intros c [= <-]. cbn. split; [reflexivity | right; split; [reflexivity | eexists; reflexivity]].
    + split; [intros _ v' [=] |].
      split; [intros _ e' [= <-]; reflexivity |].
      intros c [=].
Qed.

Lemma add_live {Args} (o : Listeners.options ListenerToken.t Args) cb args
    (listeners : gmap callback ListenerToken.t) tr :
  Listeners.throwOnReAdd o = true ->
  is_Some (listeners !! cb) ->
  Listeners.add o cb args listeners tr = (Throw DuplicateRegistration, (listeners, tr)).
Proof.
  intros Hflag [t Ht]. unfold Listeners.add. rewrite Ht, Hflag. reflexivity.
Qed.

Lemma add_ok_live {Args} (o : Listeners.options ListenerToken.t Args) cb args
    (listeners listeners' : gmap callback ListenerToken.t) tr tr' :
  Listeners.throwOnReAdd o = true ->
  Listeners.add o cb args listeners tr = (Ok tt, (listeners', tr')) ->
  is_Some (listeners' !! cb).
Proof.
  intros Hflag. unfold Listeners.add. rewrite Hflag.
  destruct (listeners !! cb) as [t |] eqn:Hcb; [discriminate |].
  destruct (Listeners.register o cb args tr) as [[token | e] tr'']; [| discriminate].
  intros [= <- <-]. rewrite lookup_insert_eq. eexists; reflexivity.
Qed.

Lemma remove_absent {Args} (o : Listeners.options ListenerToken.t Args) cb
    (listeners : gmap callback ListenerToken.t) tr :
  listeners !! cb = None ->
  Listeners.remove o cb listeners tr = (Ok tt, (listeners, tr)).
Proof.
  intros Hcb. unfold Listeners.remove. rewrite Hcb. reflexivity.
Qed.

Lemma remove_live {Args} (o : Listeners.options ListenerToken.t Args) cb
    (listeners : gmap callback ListenerToken.t) tr t c :
  (forall t' tr', Listeners.unregister o t' tr' = engine_unregister (c t') tr') ->
  listeners !! cb = Some t ->
  Listeners.remove o cb listeners tr = (Ok tt, (delete cb listeners, tr ++ [c t])).
Proof.
  intros Hun Hcb. unfold Listeners.remove. rewrite Hcb, Hun. reflexivity.
Qed.

(** C3: in either registry, adding a callback that has a live entry fails
    with DuplicateRegistration and leaves the registries and the engine as
    they were; in particular an add that succeeded makes every further add
    of the same callback fail that way. *)
Theorem add_live_callback_rejected (this : SyncSession.t) (direction mode : value)
    (cb : callback) (w : World) :
  (is_Some (progress_listeners w !! cb) ->
   SyncSession.addProgressNotification issue_token this direction mode cb w
   = (Throw DuplicateRegistration, w))
  /\ (is_Some (connection_listeners w !! cb) ->
      SyncSession.addConnectionNotification issue_token this cb w
      = (Throw DuplicateRegistration, w))
  /\ (forall w', SyncSession.addProgressNotification issue_token this direction mode cb w
                 = (Ok tt, w') ->
      forall this' direction' mode',
        SyncSession.addProgressNotification issue_token this' direction' mode' cb w'
        = (Throw DuplicateRegistration, w'))
  /\ (forall w', SyncSession.addConnectionNotification issue_token this cb w = (Ok tt, w') ->
      forall this',
        SyncSession.addConnectionNotification issue_token this' cb w'
        = (Throw DuplicateRegistration, w')).
Proof.
  split; [| split; [| split]].
  - intros Hlive. unfold SyncSession.addProgressNotification.
    rewrite add_live by (reflexivity || exact Hlive). rewrite World_eta. reflexivity.
  - intros Hlive. unfold SyncSession.addConnectionNotification.
    rewrite add_live by (reflexivity || exact Hlive). rewrite World_eta. reflexivity.
  - intros w'. unfold SyncSession.addProgressNotification at 1.
    destruct (Listeners.add _ _ _ _ _) as [r [listeners tr]] eqn:Hadd.
    intros [= -> <-] this' direction' mode'.
    apply add_ok_live in Hadd; [| reflexivity].
    unfold SyncSession.addProgressNotification. cbn [progress_listeners engine].
    rewrite add_live by (reflexivity || exact Hadd). reflexivity.
  - intros w'. unfold SyncSession.addConnectionNotification at 1.
    destruct (Listeners.add _ _ _ _ _) as [r [listeners tr]] eqn:Hadd.
    intros [= -> <-] this'.
    apply add_ok_live in Hadd; [| reflexivity].
    unfold SyncSession.addConnectionNotification. cbn [connection_listeners engine].
    rewrite add_live by (reflexivity || exact Hadd). reflexivity.
Qed.

(** C7: in either registry, removing a callback that has no live entry
    returns normally, calls nothing on the engine and leaves the registries
    as they were; in particular a second removal of a callback, after any
    first one, is such a no-op. *)
Theorem remove_absent_callback_noop (this : SyncSession.t) (cb : callback) (w : World) :
  (progress_listeners w !! cb = None ->
   SyncSession.removeProgressNotification issue_token this cb w = (Ok tt, w))
  /\ (connection_listeners w !! cb = None ->
      SyncSession.removeConnectionNotification issue_token this cb w = (Ok tt, w))
  /\ (forall r w', SyncSession.removeProgressNotification issue_token this cb w = (r, w') ->
      forall this', SyncSession.removeProgressNotification issue_token this' cb w' = (Ok tt, w'))
  /\ (forall r w', SyncSession.removeConnectionNotification issue_token this cb w = (r, w') ->
      forall this', SyncSession.removeConnectionNotification issue_token this' cb w' = (Ok tt, w')).
Proof.
  split; [| split; [| split]].
  - intros Hcb. unfold SyncSession.removeProgressNotification.
    rewrite remove_absent by exact Hcb. rewrite World_eta. reflexivity.
  - intros Hcb. unfold SyncSession.removeConnectionNotification.
    rewrite remove_absent by exact Hcb. rewrite World_eta. reflexivity.
  - intros r w'. unfold SyncSession.removeProgressNotification at 1.
    destruct (progress_listeners w !! cb) as [t |] eqn:Hcb.
    + rewrite (remove_live _ _ _ _ t
        (fun t => binding.unregisterProgressNotifier (ListenerToken.internal t) (ListenerToken.token t)))
        by (reflexivity || exact Hcb).
      intros [= <- <-] this'. unfold SyncSession.removeProgressNotification.
      cbn [progress_listeners engine connection_listeners].
      rewrite remove_absent by apply lookup_delete_eq. reflexivity.
    + rewrite remove_absent by exact Hcb. rewrite World_eta.
      intros [= <- <-] this'. unfold SyncSession.removeProgressNotification.
      rewrite remove_absent by exact Hcb. rewrite World_eta. reflexivity.
  - intros r w'. unfold SyncSession.removeConnectionNotification at 1.
    destruct (connection_listeners w !! cb) as [t |] eqn:Hcb.
    + rewrite (remove_live _ _ _ _ t
        (fun t => binding.unregisterProgressNotifier (ListenerToken.internal t) (ListenerToken.token t)))
        by (reflexivity || exact Hcb).
      intros [= <- <-] this'. unfold SyncSession.removeConnectionNotification.
      cbn [progress_listeners engine connection_listeners].
      rewrite remove_absent by apply lookup_delete_eq. reflexivity.
    + rewrite remove_absent by exact Hcb. rewrite World_eta.
      intros [= <- <-] this'. unfold SyncSession.removeConnectionNotification.
      rewrite remove_absent by exact Hcb. rewrite World_eta. reflexivity.
Qed.

(** C1, as the code behaves: removing a connection-notification callback
    that has a live entry deletes the entry and makes exactly one call on
    the engine, which is unregisterProgressNotifier with the stored token;
    unregisterConnectionChangeCallback is not called. *)
Theorem removeConnectionNotification_unregisters_as_progress (this : SyncSession.t)
    (cb : callback) (w : World) (t : ListenerToken.t)
    (Hlive : connection_listeners w !! cb = Some t) :
  SyncSession.removeConnectionNotification issue_token this cb w
  = (Ok tt,
     {| progress_listeners := progress_listeners w;
        connection_listeners := delete cb (connection_listeners w);
        engine := engine w ++
          [binding.unregisterProgressNotifier (ListenerToken.internal t) (ListenerToken.token t)] |})
  /\ forall w', snd (SyncSession.removeConnectionNotification issue_token this cb w) = w' ->
       forall tr, engine w' = engine w ++ tr ->
       forall handle tok, binding.unregisterConnectionChangeCallback handle tok ∉ tr.
Proof.
  assert (SyncSession.removeConnectionNotification issue_token this cb w
    = (Ok tt,
       {| progress_listeners := progress_listeners w;
          connection_listeners := delete cb (connection_listeners w);
          engine := engine w ++
            [binding.unregisterProgressNotifier (ListenerToken.internal t) (ListenerToken.token t)] |}))
    as Hrun.
  { unfold SyncSession.removeConnectionNotification.
    rewrite (remove_live _ _ _ _ t
      (fun t => binding.unregisterProgressNotifier (ListenerToken.internal t) (ListenerToken.token t)))
      by (reflexivity || exact Hlive).
    reflexivity. }
  split; [exact Hrun |].
  intros w' <- tr. rewrite Hrun. cbn [snd engine].
  intros Htr handle tok. apply app_inv_head in Htr. subst tr.
  intros Hin. apply list_elem_of_singleton in Hin. discriminate.
Qed.

Lemma TimeoutPromise_timer_first {A} (signal : Promise A) (d : Z) (message : string) :
  elapses_before d signal ->
  TimeoutPromise timer_wins_tie signal (Some d) message = settled_at d (Throw (Timeout message)).
Proof.
  destruct signal as [t outcome |]; cbn; [| reflexivity].
  intros Hlt. repeat case_decide; try reflexivity; lia.
Qed.

Lemma TimeoutPromise_signal_first {A} (signal : Promise A) (d : Z) (message : string) :
  settles_before signal d ->
  TimeoutPromise timer_wins_tie signal (Some d) message = signal.
Proof.
  destruct signal as [t outcome |]; cbn; [| intros []].
  intros Hlt. case_decide; [reflexivity | lia].
Qed.

Lemma embeds_middle (pre needle post : string) : embeds needle (pre +:+ needle +:+ post).
Proof. exists pre, post. reflexivity. Qed.

(** C2: for downloadAllServerChanges and uploadAllLocalChanges against the
    engine's completion signal: with the timeout omitted the result is the
    signal itself; with a timeout of d that elapses before the signal
    settles the result fails at d with Timeout, and the message embeds d as
    the template literal renders it, which for a safe integer is its decimal
    digits; with a signal that settles before d the result is the signal.
    With a timeout of 50 and a signal that never settles the download wait
    fails with a message that embeds 50. *)
Theorem completion_wait_deadline (this : SyncSession.t) (d : Z) :
  let download := binding.waitForDownloadCompletion (SyncSession.internal this) in
  let upload := binding.waitForUploadCompletion (SyncSession.internal this) in
  SyncSession.downloadAllServerChanges timer_wins_tie this None = download
  /\ SyncSession.uploadAllLocalChanges timer_wins_tie this None = upload
  /\ (elapses_before d download ->
      SyncSession.downloadAllServerChanges timer_wins_tie this (Some d)
      = settled_at d
          (Throw (Timeout ("Downloading changes did not complete in "
                           +:+ ToString (num d) +:+ " ms.")))
      /\ embeds (ToString (num d))
           ("Downloading changes did not complete in " +:+ ToString (num d) +:+ " ms."))
  /\ (elapses_before d upload ->
      SyncSession.uploadAllLocalChanges timer_wins_tie this (Some d)
      = settled_at d
          (Throw (Timeout ("Uploading changes did not complete in "
                           +:+ ToString (num d) +:+ " ms.")))
      /\ embeds (ToString (num d))
           ("Uploading changes did not complete in " +:+ ToString (num d) +:+ " ms."))
  /\ (settles_before download d ->
      SyncSession.downloadAllServerChanges timer_wins_tie this (Some d) = download)
  /\ (settles_before upload d ->
      SyncSession.uploadAllLocalChanges timer_wins_tie this (Some d) = upload)
  /\ (Z.abs d <= MAX_SAFE_INTEGER -> ToString (num d) = pretty d)
  /\ (download = pending_forever ->
      SyncSession.downloadAllServerChanges timer_wins_tie this (Some 50)
      = settled_at 50 (Throw (Timeout "Downloading changes did not complete in 50 ms."))
      /\ embeds "50" "Downloading changes did not complete in 50 ms.").
Proof.
  cbv zeta. unfold SyncSession.downloadAllServerChanges, SyncSession.uploadAllLocalChanges.
  split; [reflexivity |]. split; [reflexivity |].
  split; [| split; [| split; [| split; [| split]]]].
  - intros Hd. split; [apply TimeoutPromise_timer_first, Hd | apply embeds_middle].
  - intros Hd. split; [apply TimeoutPromise_timer_first, Hd | apply embeds_middle].
  - apply TimeoutPromise_signal_first.
  - apply TimeoutPromise_signal_first.
  - intros Hsafe. unfold ToString. apply Z.leb_le in Hsafe. rewrite Hsafe. reflexivity.
  - intros ->. split; [reflexivity |].
    exact (embeds_middle "Downloading changes did not complete in " "50" " ms.").
Qed.

End FacadeProperties.

(** * The properties on the concrete engine *)

Lemma enum_translation_never_defaults_witness :
  NoDup (@binding.SyncSessionConnectionState.members Sample.connection_codes)
  /\ @fromBindingConnectionState Sample.rendering Sample.connection_codes (num 9)
     = Throw (Error "Unexpected state: 9")
  /\ @toBindingDirection Sample.rendering Sample.direction_codes (str "sideways")
     = Throw (Error "Unexpected direction: sideways").
Proof.
  assert (NoDup (@binding.SyncSessionConnectionState.members Sample.connection_codes))
    as Hdistinct by compute_done.
  split; [exact Hdistinct |].
  destruct (@enum_translation_never_defaults Sample.rendering Sample.direction_codes Sample.connection_codes
              Hdistinct) as (_ & _ & Hstate & _ & Hdirection).
  split.
  - apply (Hstate (num 9)). compute_done.
  - apply (Hdirection (str "sideways")). compute_done.
Defined.

Lemma isConnected_truth_table_witness :
  NoDup (@binding.SyncSessionConnectionState.members Sample.connection_codes)
  /\ NoDup [num 0; num 2; num 3; num 1]
  /\ @SyncSession.isConnected Sample.connection_codes Sample.session_codes Sample.session = true
  /\ @SyncSession.isConnected Sample.connection_codes Sample.session_codes
       (reporting Sample.session (num 2) (num 3)) = false.
Proof.
  assert (NoDup (@binding.SyncSessionConnectionState.members Sample.connection_codes))
    as Hconn by compute_done.
  assert (NoDup [num 0; num 2; num 3; num 1]) as Hsess by compute_done.
  split; [exact Hconn |]. split; [exact Hsess |].
  destruct (@isConnected_truth_table Sample.connection_codes Sample.session_codes
              Sample.session (num 3) Hconn Hsess) as [Hiff Htable].
  split.
  - apply Hiff. split; [reflexivity | left; reflexivity].
  - exact (f_equal (fun rows => match rows with
                                | [_; _; [_; _; cell; _]] => cell
                                | _ => true
                                end) Htable).
Defined.

Lemma url_unavailable_or_engine_url_witness :
  SyncSession.url
    {| SyncSession.internal :=
         Sample.handle "1" false (num 0) (num 2) (str "") pending_forever pending_forever |}
  = Throw (Error "Unable to determine URL")
  /\ SyncSession.url Sample.session = Ok (str "wss://realm.example/api").
Proof.
  split.
  - apply url_unavailable_or_engine_url. right. reflexivity.
  - apply (proj1 (proj2 (url_unavailable_or_engine_url Sample.session))).
    + reflexivity.
    + discriminate.
Defined.

Lemma config_one_scoping_strategy_witness :
  SyncSession.config Sample.EJSON_parse Sample.session
  = Ok {| SyncConfiguration.user := {| User.internal := 3%positive; User.app := [] |};
          SyncConfiguration.flexible := None;
          SyncConfiguration.partitionValue := Some (num 1) |}
  /\ SyncSession.config Sample.EJSON_parse
       {| SyncSession.internal :=
            Sample.handle "{" false (num 0) (num 2) undefined pending_forever pending_forever |}
     = Throw (Foreign "BSONError" "cannot decode {")
  /\ SyncSession.config Sample.EJSON_parse
       {| SyncSession.internal :=
            Sample.handle "{" true (num 0) (num 2) undefined pending_forever pending_forever |}
     = Ok {| SyncConfiguration.user := {| User.internal := 3%positive; User.app := [] |};
             SyncConfiguration.flexible := Some true;
             SyncConfiguration.partitionValue := None |}.
Proof.
  split; [| split].
  - apply (proj1 (proj2 (config_one_scoping_strategy Sample.EJSON_parse Sample.session)));
      reflexivity.
  - apply (proj1 (proj2 (proj2 (config_one_scoping_strategy Sample.EJSON_parse
      {| SyncSession.internal :=
           Sample.handle "{" false (num 0) (num 2) undefined pending_forever pending_forever |}))));
      reflexivity.
  - apply (proj1 (config_one_scoping_strategy Sample.EJSON_parse
      {| SyncSession.internal :=
           Sample.handle "{" true (num 0) (num 2) undefined pending_forever pending_forever |}));
      reflexivity.
Defined.

Lemma add_live_callback_rejected_witness :
  is_Some (progress_listeners Sample.progress_world !! 2%positive)
  /\ SyncSession.addProgressNotification (nts := Sample.rendering) (bPD := Sample.direction_codes) Sample.issue_token
       Sample.session ProgressDirection.Download ProgressMode.ReportIndefinitely 2%positive
       Sample.progress_world
     = (Throw DuplicateRegistration, Sample.progress_world)
  /\ is_Some (connection_listeners Sample.connection_world !! 1%positive)
  /\ SyncSession.addConnectionNotification Sample.issue_token Sample.session 1%positive
       Sample.connection_world
     = (Throw DuplicateRegistration, Sample.connection_world).
Proof.
  assert (is_Some (progress_listeners Sample.progress_world !! 2%positive)) as Hprogress.
  { exists {| ListenerToken.internal := 7%positive; ListenerToken.token := 1 |}.
    vm_compute. reflexivity. }
  assert (is_Some (connection_listeners Sample.connection_world !! 1%positive)) as Hconnection.
  { exists {| ListenerToken.internal := 7%positive; ListenerToken.token := 1 |}.
    vm_compute. reflexivity. }
  split; [exact Hprogress |]. split; [| split; [exact Hconnection |]].
  - apply (proj1 (add_live_callback_rejected (nts := Sample.rendering) (bPD := Sample.direction_codes) Sample.issue_token
      Sample.session ProgressDirection.Download ProgressMode.ReportIndefinitely 2%positive
      Sample.progress_world)).
    exact Hprogress.
  - apply (proj1 (proj2 (add_live_callback_rejected (nts := Sample.rendering) (bPD := Sample.direction_codes)
      Sample.issue_token Sample.session ProgressDirection.Download
      ProgressMode.ReportIndefinitely 1%positive Sample.connection_world))).
    exact Hconnection.
Defined.

Lemma remove_absent_callback_noop_witness :
  progress_listeners Sample.connection_world !! 1%positive = None
  /\ SyncSession.removeProgressNotification (nts := Sample.rendering) (bPD := Sample.direction_codes) Sample.issue_token
       Sample.session 1%positive Sample.connection_world
     = (Ok tt, Sample.connection_world)
  /\ connection_listeners Sample.progress_world !! 2%positive = None
  /\ SyncSession.removeConnectionNotification Sample.issue_token Sample.session 2%positive
       Sample.progress_world
     = (Ok tt, Sample.progress_world).
Proof.
  assert (progress_listeners Sample.connection_world !! 1%positive = None) as Hprogress
    by (vm_compute; reflexivity).
  assert (connection_listeners Sample.progress_world !! 2%positive = None) as Hconnection
    by (vm_compute; reflexivity).
  split; [exact Hprogress |]. split; [| split; [exact Hconnection |]].
  - apply (proj1 (remove_absent_callback_noop (nts := Sample.rendering) (bPD := Sample.direction_codes)
      Sample.issue_token Sample.session 1%positive Sample.connection_world)).
    exact Hprogress.
  - apply (proj1 (proj2 (remove_absent_callback_noop (nts := Sample.rendering) (bPD := Sample.direction_codes)
      Sample.issue_token Sample.session 2%positive Sample.progress_world))).
    exact Hconnection.
Defined.

Lemma removeConnectionNotification_unregisters_as_progress_witness :
  connection_listeners Sample.connection_world !! 1%positive
  = Some {| ListenerToken.internal := 7%positive; ListenerToken.token := 1 |}
  /\ engine (snd (SyncSession.removeConnectionNotification Sample.issue_token Sample.session
                    1%positive Sample.connection_world))
     = [binding.registerConnectionChangeCallback 7%positive 1%positive;
        binding.unregisterProgressNotifier 7%positive 1].
Proof.
  assert (connection_listeners Sample.connection_world !! 1%positive
          = Some {| ListenerToken.internal := 7%positive; ListenerToken.token := 1 |}) as Hlive
    by (vm_compute; reflexivity).
  split; [exact Hlive |].
  destruct (removeConnectionNotification_unregisters_as_progress Sample.issue_token
              Sample.session 1%positive Sample.connection_world _ Hlive) as [Hrun _].
  rewrite Hrun. reflexivity.
Defined.

Lemma completion_wait_deadline_witness :
  SyncSession.downloadAllServerChanges (nts := Sample.rendering) true Sample.session (Some 50)
  = settled_at 50 (Throw (Timeout "Downloading changes did not complete in 50 ms."))
  /\ SyncSession.uploadAllLocalChanges (nts := Sample.rendering) true Sample.session (Some 50)
     = settled_at 20 (Ok tt)
  /\ SyncSession.uploadAllLocalChanges (nts := Sample.rendering) true Sample.session (Some 10)
     = settled_at 10 (Throw (Timeout "Uploading changes did not complete in 10 ms."))
  /\ SyncSession.downloadAllServerChanges (nts := Sample.rendering) true Sample.session None
     = pending_forever
  /\ SyncSession.downloadAllServerChanges (nts := Sample.rendering) true Sample.session
       (Some (10 ^ 21))
     = settled_at (10 ^ 21)
         (Throw (Timeout "Downloading changes did not complete in 1e+21 ms."))
  /\ ToString (nts := Sample.rendering) (num 50) = pretty 50.
Proof.
  assert (H50 := completion_wait_deadline (nts := Sample.rendering) true Sample.session 50).
  assert (H10 := completion_wait_deadline (nts := Sample.rendering) true Sample.session 10).
  assert (Hbig := completion_wait_deadline (nts := Sample.rendering) true Sample.session
                    (10 ^ 21)).
  cbv zeta in H50, H10, Hbig.
  destruct H50 as (Hnone & _ & Hdown50 & _ & _ & Hup50 & Hsafe50 & _).
  destruct H10 as (_ & _ & _ & Hup10 & _).
  destruct Hbig as (_ & _ & Hdownbig & _).
  split; [exact (proj1 (Hdown50 I)) |].
  split; [apply Hup50; cbn; lia |].
  split; [apply (proj1 (Hup10 ltac:(cbn; lia))) |].
  split; [exact Hnone |].
  split; [exact (proj1 (Hdownbig I)) |].
  apply Hsafe50. vm_compute. discriminate.
Defined.

(** * Further properties of the translators and the accessors *)

Section StopPolicyProperties.
Context {nts : NumberToString}.
Context {pSP : SessionStopPolicy.t}.
Context {bSP : binding.SyncSessionStopPolicy.t}.

Lemma toBindingStopPolicy_unknown (v : value) :
  v ∉ SessionStopPolicy.members ->
  toBindingStopPolicy v = Throw (Error ("Unexpected policy (get " +:+ ToString v +:+ ")")).
Proof.
  intros Hv. unfold toBindingStopPolicy.
  repeat case_decide; try reflexivity; subst v; exfalso; apply Hv;
    unfold SessionStopPolicy.members; set_solver.
Qed.

(** X1: with the three public stop policies pairwise distinct,
    toBindingStopPolicy sends AfterUpload to AfterChangesUploaded,
    Immediately to Immediately and Never to LiveIndefinitely, and it throws
    "Unexpected policy (get v)" for every other input v. *)
Theorem toBindingStopPolicy_translates
    (Hdistinct : NoDup SessionStopPolicy.members) :
  toBindingStopPolicy <$> SessionStopPolicy.members
    = Ok <$> binding.SyncSessionStopPolicy.members
  /\ (forall v, v ∉ SessionStopPolicy.members ->
        toBindingStopPolicy v
        = Throw (Error ("Unexpected policy (get " +:+ ToString v +:+ ")"))).
Proof.
  split; [| apply toBindingStopPolicy_unknown].
  unfold SessionStopPolicy.members in *.
  apply NoDup_cons in Hdistinct as [Ha Hrest].
  apply NoDup_cons in Hrest as [Hi _].
  unfold binding.SyncSessionStopPolicy.members.
  cbn [fmap list_fmap]. unfold toBindingStopPolicy.
  repeat case_decide; try reflexivity; exfalso; set_solver.
Qed.

(** X2: with the engine's three stop policies pairwise distinct, two inputs
    that toBindingStopPolicy translates to the same engine policy are the
    same input: no two public policies are merged. *)
Theorem toBindingStopPolicy_injective (p q r : value)
    (Hdistinct : NoDup binding.SyncSessionStopPolicy.members)
    (Hp : toBindingStopPolicy p = Ok r)
    (Hq : toBindingStopPolicy q = Ok r) :
  p = q.
Proof.
  unfold binding.SyncSessionStopPolicy.members in Hdistinct.
  apply NoDup_cons in Hdistinct as [Ha Hrest].
  apply NoDup_cons in Hrest as [Hi _].
  unfold toBindingStopPolicy in Hp, Hq.
  repeat case_decide; try discriminate; try congruence;
    injection Hp as <-; injection Hq as Hq; exfalso; set_solver.
Qed.

End StopPolicyProperties.

Lemma toBindingStopPolicy_translates_witness :
  NoDup (@SessionStopPolicy.members Sample.policies)
  /\ @toBindingStopPolicy Sample.rendering Sample.policies Sample.policy_codes (str "never") = Ok (num 2)
  /\ @toBindingStopPolicy Sample.rendering Sample.policies Sample.policy_codes (str "later")
     = Throw (Error "Unexpected policy (get later)").
Proof.
  assert (NoDup (@SessionStopPolicy.members Sample.policies)) as Hdistinct by compute_done.
  split; [exact Hdistinct |].
  destruct (@toBindingStopPolicy_translates Sample.rendering Sample.policies Sample.policy_codes Hdistinct)
    as [Hmembers Hunknown].
  split.
  - exact (f_equal (fun rs => match rs with
                              | [_; _; r] => r
                              | _ => Throw DuplicateRegistration
                              end) Hmembers).
  - apply (Hunknown (str "later")). compute_done.
Defined.

Lemma toBindingStopPolicy_injective_witness :
  NoDup (@binding.SyncSessionStopPolicy.members Sample.policy_codes)
  /\ @toBindingStopPolicy Sample.rendering Sample.policies Sample.policy_codes (str "immediately") = Ok (num 1)
  /\ str "immediately" = str "immediately".
Proof.
  assert (NoDup (@binding.SyncSessionStopPolicy.members Sample.policy_codes)) as Hdistinct
    by compute_done.
  assert (@toBindingStopPolicy Sample.rendering Sample.policies Sample.policy_codes (str "immediately")
          = Ok (num 1)) as Hp by reflexivity.
  split; [exact Hdistinct |]. split; [exact Hp |].
  exact (@toBindingStopPolicy_injective Sample.rendering Sample.policies Sample.policy_codes
           (str "immediately") (str "immediately") (num 1) Hdistinct Hp Hp).
Defined.

Section AccessorProperties.
Context {nts : NumberToString}.
Context {bCS : binding.SyncSessionConnectionState.t}.
Context {bSS : binding.SyncSessionState.t}.

Lemma fromBindingConnectionState_known (v : value) :
  v ∈ binding.SyncSessionConnectionState.members ->
  exists r, fromBindingConnectionState v = Ok r /\ r ∈ ConnectionState.members.
Proof.
  intros Hv. unfold binding.SyncSessionConnectionState.members in Hv.
  unfold fromBindingConnectionState, ConnectionState.members.
  repeat case_decide;
    try (eexists; split; [reflexivity | repeat constructor]).
  exfalso. rewrite !elem_of_cons, elem_of_nil in Hv.
  destruct Hv as [Hv | [Hv | [Hv | []]]]; congruence.
Qed.

(** X3: fromBindingConnectionState merges no two engine values: two values
    translated to the same public state are equal, whatever the engine's
    codes are; and a translated state is a member of the public
    ConnectionState enumeration. *)
Theorem fromBindingConnectionState_injective (a b r : value)
    (Ha : fromBindingConnectionState a = Ok r)
    (Hb : fromBindingConnectionState b = Ok r) :
  a = b /\ r ∈ ConnectionState.members.
Proof.
  unfold fromBindingConnectionState in Ha, Hb. unfold ConnectionState.members.
  repeat case_decide; try discriminate; injection Ha as <-; try discriminate;
    (split; [congruence | set_solver]).
Qed.

(** X4: a session that reports isConnected has the public connection state
    Connected, and, when the engine's Inactive state differs from its Active
    and Dying states, the public session state Active. *)
Theorem isConnected_agrees_with_getters (this : SyncSession.t)
    (Hconnected : SyncSession.isConnected this = true)
    (Hactive : binding.SyncSessionState.Inactive <> binding.SyncSessionState.Active)
    (Hdying : binding.SyncSessionState.Inactive <> binding.SyncSessionState.Dying) :
  SyncSession.connectionState this = Ok ConnectionState.Connected
  /\ SyncSession.state this = SessionState.Active.
Proof.
  unfold SyncSession.isConnected in Hconnected.
  apply andb_true_iff in Hconnected as [Hcs Hst].
  apply bool_decide_eq_true in Hcs. apply orb_true_iff in Hst.
  rewrite !bool_decide_eq_true in Hst.
  split.
  - unfold SyncSession.connectionState, fromBindingConnectionState.
    rewrite decide_True by exact Hcs. reflexivity.
  - unfold SyncSession.state, fromBindingSessionState.
    rewrite decide_False; [reflexivity |]. destruct Hst; congruence.
Qed.

(** X5: isConnected does not throw where the connectionState getter does:
    when the getter throws, the exception is the "Unexpected state" error
    for the engine's value, and isConnected returns false. *)
Theorem connectionState_throws_not_connected (this : SyncSession.t) (e : exn)
    (Hthrows : SyncSession.connectionState this = Throw e) :
  e = Error ("Unexpected state: " +:+ ToString (binding.connectionState (SyncSession.internal this)))
  /\ SyncSession.isConnected this = false.
Proof.
  unfold SyncSession.connectionState, fromBindingConnectionState in Hthrows.
  repeat case_decide; try discriminate. injection Hthrows as <-.
  split; [reflexivity |].
  unfold SyncSession.isConnected. rewrite bool_decide_eq_false_2 by assumption.
  reflexivity.
Qed.

(** X6: the getters do not determine isConnected.  For a session whose
    engine connection state is Connected and whose engine session state is
    none of Active, Dying and Inactive, the public state is Active and the
    public connection state is Connected, yet isConnected is false. *)
Theorem unnamed_session_state_not_connected (this : SyncSession.t)
    (Hcs : binding.connectionState (SyncSession.internal this)
           = binding.SyncSessionConnectionState.Connected)
    (Hst : binding.state (SyncSession.internal this)
           ∉ [binding.SyncSessionState.Active; binding.SyncSessionState.Dying;
              binding.SyncSessionState.Inactive]) :
  SyncSession.state this = SessionState.Active
  /\ SyncSession.connectionState this = Ok ConnectionState.Connected
  /\ SyncSession.isConnected this = false.
Proof.
  split; [| split].
  - unfold SyncSession.state, fromBindingSessionState.
    rewrite decide_False; [reflexivity |]. intros Heq. apply Hst. rewrite Heq. set_solver.
  - unfold SyncSession.connectionState, fromBindingConnectionState.
    rewrite decide_True by exact Hcs. reflexivity.
  - unfold SyncSession.isConnected.
    rewrite (bool_decide_eq_false_2 (_ = binding.SyncSessionState.Active)),
            (bool_decide_eq_false_2 (_ = binding.SyncSessionState.Dying));
      [apply andb_false_r | |];
      intros Heq; apply Hst; rewrite Heq; set_solver.
Qed.

(** X7: the connection-change adapter swaps the engine's argument order: the
    callback receives the translated new state first and the translated old
    state second.  It translates the new state first: an unknown new state
    throws its "Unexpected state" error whatever the old state is, and an
    unknown old state throws its own error only when the new state is known;
    in both cases the callback is not called. *)
Theorem connectionChangeAdapter_swaps (oldState newState : value) :
  (forall o n, fromBindingConnectionState oldState = Ok o ->
               fromBindingConnectionState newState = Ok n ->
               connectionChangeAdapter oldState newState = Ok (n, o))
  /\ (newState ∉ binding.SyncSessionConnectionState.members ->
      connectionChangeAdapter oldState newState
      = Throw (Error ("Unexpected state: " +:+ ToString newState)))
  /\ (newState ∈ binding.SyncSessionConnectionState.members ->
      oldState ∉ binding.SyncSessionConnectionState.members ->
      connectionChangeAdapter oldState newState
      = Throw (Error ("Unexpected state: " +:+ ToString oldState))).
Proof.
  unfold connectionChangeAdapter. split; [| split].
  - intros o n -> ->. reflexivity.
  - intros Hn. rewrite (fromBindingConnectionState_unknown _ Hn). reflexivity.
  - intros Hn Ho. destruct (fromBindingConnectionState_known _ Hn) as (r & -> & _).
    rewrite (fromBindingConnectionState_unknown _ Ho). reflexivity.
Qed.

End AccessorProperties.

Lemma fromBindingConnectionState_injective_witness :
  @fromBindingConnectionState Sample.rendering Sample.connection_codes (num 1) = Ok ConnectionState.Connecting
  /\ num 1 = num 1 /\ ConnectionState.Connecting ∈ ConnectionState.members.
Proof.
  assert (@fromBindingConnectionState Sample.rendering Sample.connection_codes (num 1)
          = Ok ConnectionState.Connecting) as Ha by reflexivity.
  split; [exact Ha |].
  exact (@fromBindingConnectionState_injective Sample.rendering Sample.connection_codes _ _ _ Ha Ha).
Defined.

Lemma isConnected_agrees_with_getters_witness :
  @SyncSession.isConnected Sample.connection_codes Sample.session_codes Sample.session = true
  /\ @SyncSession.connectionState Sample.rendering Sample.connection_codes Sample.session
     = Ok ConnectionState.Connected
  /\ @SyncSession.state Sample.session_codes Sample.session = SessionState.Active.
Proof.
  assert (@SyncSession.isConnected Sample.connection_codes Sample.session_codes Sample.session
          = true) as Hconnected by reflexivity.
  split; [exact Hconnected |].
  apply (@isConnected_agrees_with_getters Sample.rendering Sample.connection_codes Sample.session_codes
           Sample.session Hconnected); discriminate.
Defined.

Lemma connectionState_throws_not_connected_witness :
  @SyncSession.connectionState Sample.rendering Sample.connection_codes
    (reporting Sample.session (num 9) (num 0))
  = Throw (Error "Unexpected state: 9")
  /\ @SyncSession.isConnected Sample.connection_codes Sample.session_codes
       (reporting Sample.session (num 9) (num 0)) = false.
Proof.
  assert (@SyncSession.connectionState Sample.rendering Sample.connection_codes
            (reporting Sample.session (num 9) (num 0))
          = Throw (Error "Unexpected state: 9")) as Hthrows by reflexivity.
  split; [exact Hthrows |].
  exact (proj2 (@connectionState_throws_not_connected Sample.rendering Sample.connection_codes
                  Sample.session_codes _ _ Hthrows)).
Defined.

Lemma unnamed_session_state_not_connected_witness :
  @SyncSession.state Sample.session_codes (reporting Sample.session (num 2) (num 3))
  = SessionState.Active
  /\ @SyncSession.connectionState Sample.rendering Sample.connection_codes
       (reporting Sample.session (num 2) (num 3)) = Ok ConnectionState.Connected
  /\ @SyncSession.isConnected Sample.connection_codes Sample.session_codes
       (reporting Sample.session (num 2) (num 3)) = false.
Proof.
  apply (@unnamed_session_state_not_connected Sample.rendering Sample.connection_codes Sample.session_codes
           (reporting Sample.session (num 2) (num 3))).
  - reflexivity.
  - compute_done.
Defined.

Lemma connectionChangeAdapter_swaps_witness :
  @connectionChangeAdapter Sample.rendering Sample.connection_codes (num 1) (num 2)
  = Ok (ConnectionState.Connected, ConnectionState.Connecting)
  /\ @connectionChangeAdapter Sample.rendering Sample.connection_codes (num 8) (num 9)
     = Throw (Error "Unexpected state: 9")
  /\ @connectionChangeAdapter Sample.rendering Sample.connection_codes (num 8) (num 2)
     = Throw (Error "Unexpected state: 8").
Proof.
  split; [| split].
  - apply (proj1 (@connectionChangeAdapter_swaps Sample.rendering Sample.connection_codes (num 1) (num 2)));
      reflexivity.
  - apply (proj1 (proj2 (@connectionChangeAdapter_swaps Sample.rendering Sample.connection_codes
                           (num 8) (num 9)))).
    compute_done.
  - apply (proj2 (proj2 (@connectionChangeAdapter_swaps Sample.rendering Sample.connection_codes
                           (num 8) (num 2)))); compute_done.
Defined.

(** * Further properties of the registries *)

Section RegistryProperties.
Context {nts : NumberToString}.
Context {bPD : binding.ProgressDirection.t}.
Variable issue_token : list binding.Call -> Z.

Lemma toBindingDirection_known (direction : value) :
  direction ∈ ProgressDirection.members ->
  exists d, toBindingDirection direction = Ok d
            /\ d ∈ [binding.ProgressDirection.download; binding.ProgressDirection.upload].
Proof.
  unfold ProgressDirection.members. rewrite !elem_of_cons, elem_of_nil.
  intros [-> | [-> | []]]; eexists; (split; [reflexivity | repeat constructor]).
Qed.

Lemma addProgressNotification_absent (this : SyncSession.t) (direction mode d : value)
    (cb : callback) (w : World) :
  progress_listeners w !! cb = None ->
  toBindingDirection direction = Ok d ->
  let call := binding.registerProgressNotifier (binding.id (SyncSession.internal this)) cb d
                (bool_decide (mode = ProgressMode.ReportIndefinitely)) in
  SyncSession.addProgressNotification issue_token this direction mode cb w
  = (Ok tt,
     {| progress_listeners :=
          <[cb := {| ListenerToken.internal := binding.id (SyncSession.internal this);
                     ListenerToken.token := issue_token (engine w ++ [call]) |}]>
            (progress_listeners w);
        connection_listeners := connection_listeners w;
        engine := engine w ++ [call] |}).
Proof.
  intros Hcb Hd. cbv zeta.
  unfold SyncSession.addProgressNotification, Listeners.add. rewrite Hcb.
  cbn [Listeners.register PROGRESS_LISTENERS]. unfold bind, lift. rewrite Hd.
  reflexivity.
Qed.

Lemma addConnectionNotification_absent (this : SyncSession.t) (cb : callback) (w : World) :
  connection_listeners w !! cb = None ->
  let call := binding.registerConnectionChangeCallback
                (binding.id (SyncSession.internal this)) cb in
  SyncSession.addConnectionNotification issue_token this cb w
  = (Ok tt,
     {| progress_listeners := progress_listeners w;
        connection_listeners :=
          <[cb := {| ListenerToken.internal := binding.id (SyncSession.internal this);
                     ListenerToken.token := issue_token (engine w ++ [call]) |}]>
            (connection_listeners w);
        engine := engine w ++ [call] |}).
Proof.
  intros Hcb. cbv zeta.
  unfold SyncSession.addConnectionNotification, Listeners.add. rewrite Hcb.
  reflexivity.
Qed.

Lemma removeProgressNotification_live (this : SyncSession.t) (cb : callback) (w : World)
    (t : ListenerToken.t) :
  progress_listeners w !! cb = Some t ->
  SyncSession.removeProgressNotification issue_token this cb w
  = (Ok tt,
     {| progress_listeners := delete cb (progress_listeners w);
        connection_listeners := connection_listeners w;
        engine := engine w ++
          [binding.unregisterProgressNotifier (ListenerToken.internal t) (ListenerToken.token t)] |}).
Proof.
  intros Hcb. unfold SyncSession.removeProgressNotification, Listeners.remove.
  rewrite Hcb. reflexivity.
Qed.

(** X8: addProgressNotification translates the direction before it calls
    the engine: for a callback without a live entry and a direction that is
    no member of ProgressDirection it throws "Unexpected direction", makes no
    call on the engine and records no entry. *)
Theorem addProgressNotification_bad_direction (this : SyncSession.t) (direction mode : value)
    (cb : callback) (w : World)
    (Habsent : progress_listeners w !! cb = None)
    (Hdirection : direction ∉ ProgressDirection.members) :
  SyncSession.addProgressNotification issue_token this direction mode cb w
  = (Throw (Error ("Unexpected direction: " +:+ ToString direction)), w).
Proof.
  unfold SyncSession.addProgressNotification, Listeners.add. rewrite Habsent.
  cbn [Listeners.register PROGRESS_LISTENERS]. unfold bind, lift.
  rewrite (toBindingDirection_unknown _ Hdirection).
  destruct w; reflexivity.
Qed.

(** X9: for a callback without a live entry and a direction of
    ProgressDirection, addProgressNotification makes exactly one call on the
    engine, registerProgressNotifier on the session's handle with the
    translated direction, and records the handle with the token the engine
    returns.  The mode is not validated: the notifier is streaming exactly
    when the mode is ReportIndefinitely, so every other value, a member of
    ProgressMode or not, registers a notifier for the outstanding work. *)
Theorem addProgressNotification_registers (this : SyncSession.t) (direction mode : value)
    (cb : callback) (w : World)
    (Habsent : progress_listeners w !! cb = None)
    (Hdirection : direction ∈ ProgressDirection.members) :
  exists d,
    toBindingDirection direction = Ok d
    /\ d ∈ [binding.ProgressDirection.download; binding.ProgressDirection.upload]
    /\ let call := binding.registerProgressNotifier (binding.id (SyncSession.internal this)) cb d
                     (bool_decide (mode = ProgressMode.ReportIndefinitely)) in
       SyncSession.addProgressNotification issue_token this direction mode cb w
       = (Ok tt,
          {| progress_listeners :=
               <[cb := {| ListenerToken.internal := binding.id (SyncSession.internal this);
                          ListenerToken.token := issue_token (engine w ++ [call]) |}]>
                 (progress_listeners w);
             connection_listeners := connection_listeners w;
             engine := engine w ++ [call] |}).
Proof.
  destruct (toBindingDirection_known _ Hdirection) as (d & Hd & Hmember).
  exists d. split; [exact Hd |]. split; [exact Hmember |].
  apply addProgressNotification_absent; assumption.
Qed.

(** X10: a progress listener added through one facade instance can be
    removed through any other: the removal unregisters on the handle that
    registered the listener, with the token the engine returned for it, and
    leaves both registries as they were before the add. *)
Theorem progress_add_remove_round_trip (this this' : SyncSession.t) (direction mode : value)
    (cb : callback) (w : World)
    (Habsent : progress_listeners w !! cb = None)
    (Hdirection : direction ∈ ProgressDirection.members) :
  exists d,
    toBindingDirection direction = Ok d
    /\ let call := binding.registerProgressNotifier (binding.id (SyncSession.internal this)) cb d
                     (bool_decide (mode = ProgressMode.ReportIndefinitely)) in
       SyncSession.removeProgressNotification issue_token this' cb
         (snd (SyncSession.addProgressNotification issue_token this direction mode cb w))
       = (Ok tt,
          {| progress_listeners := progress_listeners w;
             connection_listeners := connection_listeners w;
             engine := engine w ++
               [call;
                binding.unregisterProgressNotifier (binding.id (SyncSession.internal this))
                  (issue_token (engine w ++ [call]))] |}).
Proof.
  destruct (toBindingDirection_known _ Hdirection) as (d & Hd & _).
  exists d. split; [exact Hd |]. cbv zeta.
  rewrite (addProgressNotification_absent this direction mode d cb w Habsent Hd).
  cbn [snd].
  erewrite removeProgressNotification_live by apply lookup_insert_eq.
  cbn [progress_listeners connection_listeners engine ListenerToken.internal ListenerToken.token].
  rewrite delete_insert_id by exact Habsent. rewrite <- app_assoc. reflexivity.
Qed.

Lemma addProgressNotification_live (this : SyncSession.t) (direction mode : value)
    (cb : callback) (w : World) :
  is_Some (progress_listeners w !! cb) ->
  SyncSession.addProgressNotification issue_token this direction mode cb w
  = (Throw DuplicateRegistration, w).
Proof.
  intros Hlive. unfold SyncSession.addProgressNotification.
  rewrite add_live by (reflexivity || exact Hlive). apply f_equal, World_eta.
Qed.

Lemma addConnectionNotification_live (this : SyncSession.t) (cb : callback) (w : World) :
  is_Some (connection_listeners w !! cb) ->
  SyncSession.addConnectionNotification issue_token this cb w
  = (Throw DuplicateRegistration, w).
Proof.
  intros Hlive. unfold SyncSession.addConnectionNotification.
  rewrite add_live by (reflexivity || exact Hlive). apply f_equal, World_eta.
Qed.

Lemma addProgressNotification_unknown (this : SyncSession.t) (direction mode : value)
    (cb : callback) (w : World) :
  progress_listeners w !! cb = None ->
  direction ∉ ProgressDirection.members ->
  SyncSession.addProgressNotification issue_token this direction mode cb w
  = (Throw (Error ("Unexpected direction: " +:+ ToString direction)), w).
Proof.
  intros Habsent Hdirection.
  unfold SyncSession.addProgressNotification, Listeners.add. rewrite Habsent.
  cbn [Listeners.register PROGRESS_LISTENERS]. unfold bind, lift.
  rewrite (toBindingDirection_unknown _ Hdirection).
  destruct w; reflexivity.
Qed.

Lemma removeProgressNotification_absent (this : SyncSession.t) (cb : callback) (w : World) :
  progress_listeners w !! cb = None ->
  SyncSession.removeProgressNotification issue_token this cb w = (Ok tt, w).
Proof.
  intros Hcb. unfold SyncSession.removeProgressNotification.
  rewrite remove_absent by exact Hcb. apply f_equal, World_eta.
Qed.

Lemma removeConnectionNotification_absent (this : SyncSession.t) (cb : callback) (w : World) :
  connection_listeners w !! cb = None ->
  SyncSession.removeConnectionNotification issue_token this cb w = (Ok tt, w).
Proof.
  intros Hcb. unfold SyncSession.removeConnectionNotification.
  rewrite remove_absent by exact Hcb. apply f_equal, World_eta.
Qed.

Lemma removeConnectionNotification_live (this : SyncSession.t) (cb : callback) (w : World)
    (t : ListenerToken.t) :
  connection_listeners w !! cb = Some t ->
  SyncSession.removeConnectionNotification issue_token this cb w
  = (Ok tt,
     {| progress_listeners := progress_listeners w;
        connection_listeners := delete cb (connection_listeners w);
        engine := engine w ++
          [binding.unregisterProgressNotifier (ListenerToken.internal t) (ListenerToken.token t)] |}).
Proof.
  intros Hcb. unfold SyncSession.removeConnectionNotification, Listeners.remove.
  rewrite Hcb. reflexivity.
Qed.

Lemma perform_effect (op : Op) (w : World) :
  effect issue_token w (op_callback op) (on_progress op) (snd (perform issue_token op w)).
Proof.
  destruct op as [this direction mode cb | this cb | this cb | this cb];
    cbn [perform op_callback on_progress].
  - destruct (progress_listeners w !! cb) as [t |] eqn:Hcb.
    + rewrite addProgressNotification_live by (eexists; exact Hcb). apply effect_none.
    + destruct (decide (direction ∈ ProgressDirection.members)) as [Hin | Hout].
      * destruct (toBindingDirection_known _ Hin) as (d & Hd & _).
        rewrite (addProgressNotification_absent this direction mode d cb w Hcb Hd).
        apply effect_add_progress, Hcb.
      * rewrite addProgressNotification_unknown by assumption. apply effect_none.
  - destruct (progress_listeners w !! cb) as [t |] eqn:Hcb.
    + rewrite (removeProgressNotification_live this cb w t Hcb).
      apply effect_remove_progress, Hcb.
    + rewrite removeProgressNotification_absent by exact Hcb. apply effect_none.
  - destruct (connection_listeners w !! cb) as [t |] eqn:Hcb.
    + rewrite addConnectionNotification_live by (eexists; exact Hcb). apply effect_none.
    + rewrite (addConnectionNotification_absent this cb w Hcb).
      apply effect_add_connection, Hcb.
  - destruct (connection_listeners w !! cb) as [t |] eqn:Hcb.
    + rewrite (removeConnectionNotification_live this cb w t Hcb).
      apply effect_remove_connection, Hcb.
    + rewrite removeConnectionNotification_absent by exact Hcb. apply effect_none.
Qed.

Lemma run_cons (op : Op) (ops : list Op) (w : World) :
  run issue_token (op :: ops) w = run issue_token ops (snd (perform issue_token op w)).
Proof. reflexivity. Qed.

Lemma effect_local (w w' : World) (cb : callback) (progress : bool) :
  effect issue_token w cb progress w' ->
  (forall cb', cb' <> cb ->
     progress_listeners w' !! cb' = progress_listeners w !! cb'
     /\ connection_listeners w' !! cb' = connection_listeners w !! cb')
  /\ (progress = true -> connection_listeners w' = connection_listeners w)
  /\ (progress = false -> progress_listeners w' = progress_listeners w).
Proof.
  intros Heffect.
  destruct Heffect as [cb progress | cb handle direction isStreaming Hcb call
                      | cb handle Hcb call | cb t Hcb | cb t Hcb];
    cbn [progress_listeners connection_listeners];
    (split; [intros cb' Hne | split; intros Hflag; (reflexivity || discriminate)]).
  - split; reflexivity.
  - rewrite lookup_insert_ne by congruence. split; reflexivity.
  - rewrite lookup_insert_ne by congruence. split; reflexivity.
  - rewrite lookup_delete_ne by congruence. split; reflexivity.
  - rewrite lookup_delete_ne by congruence. split; reflexivity.
Qed.



Lemma effect_trace (w w' : World) (cb : callback) (progress : bool) :
  effect issue_token w cb progress w' ->
  engine w `prefix_of` engine w' /\ (length (engine w') <= S (length (engine w)))%nat.
Proof.
  intros Heffect.
  destruct Heffect as [cb progress | cb handle direction isStreaming Hcb call
                      | cb handle Hcb call | cb t Hcb | cb t Hcb];
    cbn [engine]; rewrite ?length_app; cbn [length];
    (split; [first [reflexivity | apply prefix_app_r; reflexivity] | lia]).
Qed.

Lemma effect_issued (w w' : World) (cb : callback) (progress : bool) :
  effect issue_token w cb progress w' ->
  issued_by_engine issue_token w -> issued_by_engine issue_token w'.
Proof.
  intros Heffect [Hprogress Hconnection].
  destruct Heffect as [cb progress | cb handle direction isStreaming Hcb call
                      | cb handle Hcb call | cb t Hcb | cb t Hcb];
    (split; [intros cb' t' | intros cb' t']);
    cbn [progress_listeners connection_listeners engine].
  - apply Hprogress.
  - apply Hconnection.
  - rewrite lookup_insert. case_decide as Hcase.
    + intros [= <-]. subst cb'. exists (engine w), direction, isStreaming.
      split; reflexivity.
    + intros Hlookup. destruct (Hprogress _ _ Hlookup) as (pre & d & s & Hpre & Htoken).
      exists pre, d, s. split; [apply prefix_app_r, Hpre | exact Htoken].
  - intros Hlookup. destruct (Hconnection _ _ Hlookup) as (pre & Hpre & Htoken).
    exists pre. split; [apply prefix_app_r, Hpre | exact Htoken].
  - intros Hlookup. destruct (Hprogress _ _ Hlookup) as (pre & d & s & Hpre & Htoken).
    exists pre, d, s. split; [apply prefix_app_r, Hpre | exact Htoken].
  - rewrite lookup_insert. case_decide as Hcase.
    + intros [= <-]. subst cb'. exists (engine w). split; reflexivity.
    + intros Hlookup. destruct (Hconnection _ _ Hlookup) as (pre & Hpre & Htoken).
      exists pre. split; [apply prefix_app_r, Hpre | exact Htoken].
  - rewrite lookup_delete. case_decide; [discriminate |].
    intros Hlookup. destruct (Hprogress _ _ Hlookup) as (pre & d & s & Hpre & Htoken).
    exists pre, d, s. split; [apply prefix_app_r, Hpre | exact Htoken].
  - intros Hlookup. destruct (Hconnection _ _ Hlookup) as (pre & Hpre & Htoken).
    exists pre. split; [apply prefix_app_r, Hpre | exact Htoken].
  - intros Hlookup. destruct (Hprogress _ _ Hlookup) as (pre & d & s & Hpre & Htoken).
    exists pre, d, s. split; [apply prefix_app_r, Hpre | exact Htoken].
  - rewrite lookup_delete. case_decide; [discriminate |].
    intros Hlookup. destruct (Hconnection _ _ Hlookup) as (pre & Hpre & Htoken).
    exists pre. split; [apply prefix_app_r, Hpre | exact Htoken].
Qed.

(** X11: a registry call is local to its callback and its registry: it
    leaves the entry of every other callback in both registries as it was,
    a progress call leaves the whole connection registry as it was, and a
    connection call the whole progress registry. *)
Theorem registry_call_is_local (op : Op) (w : World) :
  (forall cb', cb' <> op_callback op ->
     progress_listeners (snd (perform issue_token op w)) !! cb' = progress_listeners w !! cb'
     /\ connection_listeners (snd (perform issue_token op w)) !! cb'
        = connection_listeners w !! cb')
  /\ (on_progress op = true ->
      connection_listeners (snd (perform issue_token op w)) = connection_listeners w)
  /\ (on_progress op = false ->
      progress_listeners (snd (perform issue_token op w)) = progress_listeners w).
Proof. exact (effect_local _ _ _ _ (perform_effect op w)). Qed.


(** X13: along every sequence of registry calls, the token of each live
    entry is the one the engine returned for a register call of the entry's
    registry, made on the entry's handle for the entry's callback, once that
    is so at the start. *)
Theorem tokens_stay_issued_by_engine (ops : list Op) (w : World)
    (Hissued : issued_by_engine issue_token w) :
  issued_by_engine issue_token (run issue_token ops w).
Proof.
  revert w Hissued. induction ops as [| op ops IH]; intros w Hissued.
  - exact Hissued.
  - rewrite run_cons. apply IH. exact (effect_issued _ _ _ _ (perform_effect op w) Hissued).
Qed.

(** X14: the registries only ever add to what the engine has been asked: a
    sequence of registry calls extends the engine's trace, keeping what was
    there, by at most one call per registry call. *)
Theorem engine_trace_only_grows (ops : list Op) (w : World) :
  engine w `prefix_of` engine (run issue_token ops w)
  /\ (length (engine (run issue_token ops w)) <= length (engine w) + length ops)%nat.
Proof.
  revert w. induction ops as [| op ops IH]; intros w.
  - split; [reflexivity | cbn; lia].
  - rewrite run_cons. destruct (IH (snd (perform issue_token op w))) as [Hprefix Hlength].
    destruct (effect_trace _ _ _ _ (perform_effect op w)) as [Hprefix1 Hlength1].
    split; [etrans; eassumption | cbn [length]; lia].
Qed.

End RegistryProperties.

Section BothRegistries.
Context {nts : NumberToString}.
Context {bPD : binding.ProgressDirection.t}.
Variable issue_token : list binding.Call -> Z.

(** X15: the two registries are keyed independently.  A callback that is
    live in neither can be added to the progress registry and then to the
    connection registry: both adds succeed, both entries are live, and the
    engine receives the two register calls in that order. *)
Theorem callback_live_in_both_registries (this this' : SyncSession.t) (direction mode : value)
    (cb : callback) (w : World)
    (Hprogress : progress_listeners w !! cb = None)
    (Hconnection : connection_listeners w !! cb = None)
    (Hdirection : direction ∈ ProgressDirection.members) :
  let w1 := snd (SyncSession.addProgressNotification issue_token this direction mode cb w) in
  let w2 := snd (SyncSession.addConnectionNotification issue_token this' cb w1) in
  fst (SyncSession.addProgressNotification issue_token this direction mode cb w) = Ok tt
  /\ fst (SyncSession.addConnectionNotification issue_token this' cb w1) = Ok tt
  /\ is_Some (progress_listeners w2 !! cb)
  /\ is_Some (connection_listeners w2 !! cb)
  /\ exists d,
       toBindingDirection direction = Ok d
       /\ engine w2
          = engine w ++
            [binding.registerProgressNotifier (binding.id (SyncSession.internal this)) cb d
               (bool_decide (mode = ProgressMode.ReportIndefinitely));
             binding.registerConnectionChangeCallback
               (binding.id (SyncSession.internal this')) cb].
Proof.
  destruct (toBindingDirection_known _ Hdirection) as (d & Hd & _).
  cbv zeta.
  rewrite (addProgressNotification_absent issue_token this direction mode d cb w Hprogress Hd).
  cbn [fst snd].
  rewrite addConnectionNotification_absent by exact Hconnection.
  cbn [fst snd progress_listeners connection_listeners engine].
  split; [reflexivity |]. split; [reflexivity |].
  split; [rewrite lookup_insert_eq; eexists; reflexivity |].
  split; [rewrite lookup_insert_eq; eexists; reflexivity |].
  exists d. split; [exact Hd |]. rewrite <- app_assoc. reflexivity.
Qed.

End BothRegistries.

(** * The further properties on the concrete engine *)

Lemma addProgressNotification_bad_direction_witness :
  SyncSession.addProgressNotification (nts := Sample.rendering) (bPD := Sample.direction_codes) Sample.issue_token
    Sample.session (str "sideways") ProgressMode.ReportIndefinitely 4%positive
    Sample.empty_world
  = (Throw (Error "Unexpected direction: sideways"), Sample.empty_world).
Proof.
  apply (addProgressNotification_bad_direction (nts := Sample.rendering) (bPD := Sample.direction_codes)
           Sample.issue_token Sample.session (str "sideways")).
  - vm_compute. reflexivity.
  - compute_done.
Defined.

Lemma addProgressNotification_registers_witness :
  fst (SyncSession.addProgressNotification (nts := Sample.rendering) (bPD := Sample.direction_codes) Sample.issue_token
         Sample.session ProgressDirection.Upload (str "sometimes") 4%positive
         Sample.empty_world) = Ok tt
  /\ engine (snd (SyncSession.addProgressNotification (nts := Sample.rendering) (bPD := Sample.direction_codes)
                   Sample.issue_token Sample.session ProgressDirection.Upload
                   (str "sometimes") 4%positive Sample.empty_world))
     = [binding.registerProgressNotifier 7%positive 4%positive (num 0) false].
Proof.
  destruct (addProgressNotification_registers (nts := Sample.rendering) (bPD := Sample.direction_codes)
              Sample.issue_token Sample.session ProgressDirection.Upload (str "sometimes")
              4%positive Sample.empty_world)
    as (d & Hd & _ & Hrun).
  - vm_compute. reflexivity.
  - compute_done.
  - rewrite Hrun. vm_compute in Hd. injection Hd as <-. split; reflexivity.
Defined.

Lemma progress_add_remove_round_trip_witness :
  SyncSession.removeProgressNotification (nts := Sample.rendering) (bPD := Sample.direction_codes) Sample.issue_token
    Sample.other_session 4%positive
    (snd (SyncSession.addProgressNotification (nts := Sample.rendering) (bPD := Sample.direction_codes)
            Sample.issue_token Sample.session ProgressDirection.Download
            ProgressMode.ReportIndefinitely 4%positive Sample.empty_world))
  = (Ok tt,
     {| progress_listeners := ∅;
        connection_listeners := ∅;
        engine := [binding.registerProgressNotifier 7%positive 4%positive (num 1) true;
                   binding.unregisterProgressNotifier 7%positive 1] |}).
Proof.
  destruct (progress_add_remove_round_trip (nts := Sample.rendering) (bPD := Sample.direction_codes)
              Sample.issue_token Sample.session Sample.other_session
              ProgressDirection.Download ProgressMode.ReportIndefinitely
              4%positive Sample.empty_world)
    as (d & Hd & Hrun).
  - vm_compute. reflexivity.
  - compute_done.
  - rewrite Hrun. vm_compute in Hd. injection Hd as <-. reflexivity.
Defined.

Lemma registry_call_is_local_witness :
  connection_listeners
    (snd (perform (nts := Sample.rendering) (bPD := Sample.direction_codes) Sample.issue_token
            (AddProgress Sample.other_session ProgressDirection.Upload
               ProgressMode.ReportIndefinitely 2%positive)
            Sample.connection_world)) !! 1%positive
  = Some {| ListenerToken.internal := 7%positive; ListenerToken.token := 1 |}.
Proof.
  destruct (registry_call_is_local (nts := Sample.rendering) (bPD := Sample.direction_codes) Sample.issue_token
              (AddProgress Sample.other_session ProgressDirection.Upload
                 ProgressMode.ReportIndefinitely 2%positive)
              Sample.connection_world) as [Hother _].
  destruct (Hother 1%positive) as [_ Hconnection]; [discriminate |].
  etrans; [exact Hconnection | vm_compute; reflexivity].
Defined.


Lemma tokens_stay_issued_by_engine_witness :
  issued_by_engine Sample.issue_token Sample.empty_world
  /\ issued_by_engine Sample.issue_token
       (run (nts := Sample.rendering) (bPD := Sample.direction_codes) Sample.issue_token
          [AddProgress Sample.session ProgressDirection.Upload
             ProgressMode.ForCurrentlyOutstandingWork 2%positive;
           AddConnection Sample.other_session 2%positive;
           RemoveProgress Sample.other_session 2%positive]
          Sample.empty_world).
Proof.
  assert (issued_by_engine Sample.issue_token Sample.empty_world) as Hstart.
  { split; intros cb t Hlookup; vm_compute in Hlookup; discriminate. }
  split; [exact Hstart |].
  apply (tokens_stay_issued_by_engine (nts := Sample.rendering) (bPD := Sample.direction_codes)). exact Hstart.
Defined.

Lemma callback_live_in_both_registries_witness :
  engine
    (snd (SyncSession.addConnectionNotification Sample.issue_token Sample.other_session
            4%positive
            (snd (SyncSession.addProgressNotification (nts := Sample.rendering) (bPD := Sample.direction_codes)
                    Sample.issue_token Sample.session ProgressDirection.Download
                    ProgressMode.ForCurrentlyOutstandingWork 4%positive
                    Sample.empty_world))))
  = [binding.registerProgressNotifier 7%positive 4%positive (num 1) false;
     binding.registerConnectionChangeCallback 8%positive 4%positive].
Proof.
  destruct (callback_live_in_both_registries (nts := Sample.rendering) (bPD := Sample.direction_codes)
              Sample.issue_token Sample.session Sample.other_session
              ProgressDirection.Download ProgressMode.ForCurrentlyOutstandingWork
              4%positive Sample.empty_world)
    as (_ & _ & _ & _ & d & Hd & Htrace).
  - vm_compute. reflexivity.
  - vm_compute. reflexivity.
  - compute_done.
  - rewrite Htrace. vm_compute in Hd. injection Hd as <-. reflexivity.
Defined.
